(** * server.js: the build pipeline, embedded and verified

    A shallow embedding of [src/server.js]: the [/api/build] handler, the
    detached pipeline [processRequest] and its four stages [generateCode],
    [createGitHubRepo], [enableGitHubPages] and [notifyEvaluation].

    JavaScript values are an inductive type; every call that leaves the
    process (OpenAI, GitHub, the evaluation endpoint, timers, the console,
    the HTTP response) is an [effect] appended to a trace, and what the
    outside answers is read from a [World].  An [async] function is a
    computation in the monad [M], whose result is either [Returned] (the
    promise resolves) or [Thrown] (it rejects). *)

From Stdlib Require Import ZArith NArith List String Ascii Bool Lia Arith.
From Stdlib Require Import DecimalString.
From Stdlib Require Import Permutation Sorted.
Import ListNotations.

Local Open Scope string_scope.
Local Open Scope Z_scope.

(** ** Strings *)

Definition newline : string := String "010"%char EmptyString.
Definition dquote : string := String "034"%char EmptyString.

(** [Array.prototype.join] on strings. *)
Fixpoint join (sep : string) (l : list string) : string :=
  match l with
  | [] => EmptyString
  | [s] => s
  | s :: rest => s ++ sep ++ join sep rest
  end.

(** Decimal text of an integer, which is what [Number.prototype.toString]
    gives for a safe integer. *)
Definition string_of_Z (z : Z) : string := NilEmpty.string_of_int (Z.to_int z).
Definition string_of_nat (n : nat) : string := string_of_Z (Z.of_nat n).

(** ** JavaScript values

    What [JSON.parse] can produce, and [undefined] for a property that is
    absent.  [VNum] holds a number that is an integer (a number with a
    fraction is not represented).  [VObj] lists the own properties of an
    object in creation order, keys unique. *)

#[warnings="-register-all"]
Inductive js_value : Type :=
| VUndefined
| VNull
| VBool (b : bool)
| VNum (z : Z)
| VStr (s : string)
| VArr (elements : list js_value)
| VObj (properties : list (string * js_value)).

(** ToBoolean. *)
Definition js_truthy (v : js_value) : bool :=
  match v with
  | VUndefined | VNull => false
  | VBool b => b
  | VNum z => negb (z =? 0)
  | VStr s => negb (String.eqb s EmptyString)
  | VArr _ | VObj _ => true
  end.

Fixpoint lookup {A : Type} (k : string) (l : list (string * A)) : option A :=
  match l with
  | [] => None
  | (k', v) :: rest => if String.eqb k k' then Some v else lookup k rest
  end.

(** ** Errors and results *)

(** A thrown value: an [Error] with its message and, for the HTTP clients,
    the [status] property ([None] when the error carries none). *)
Record js_error : Type := mkError {
  err_status : option Z;
  err_message : string
}.

Definition Error (msg : string) : js_error := mkError None msg.
Definition TypeError (msg : string) : js_error := mkError None msg.

Inductive outcome (A : Type) : Type :=
| Returned (a : A)
| Thrown (e : js_error).
Arguments Returned {A} a.
Arguments Thrown {A} e.

Definition outcome_bind {A B : Type} (o : outcome A) (f : A -> outcome B) : outcome B :=
  match o with
  | Returned a => f a
  | Thrown e => Thrown e
  end.

(** Reading property [name] of [v]: a [TypeError] on [undefined] and
    [null], the own property of an object, [undefined] otherwise (none of
    the names read below is inherited or built in). *)
Definition get_prop (v : js_value) (name : string) : outcome js_value :=
  match v with
  | VUndefined =>
      Thrown (TypeError ("Cannot read properties of undefined (reading '" ++ name ++ "')"))
  | VNull =>
      Thrown (TypeError ("Cannot read properties of null (reading '" ++ name ++ "')"))
  | VObj props =>
      Returned (match lookup name props with Some x => x | None => VUndefined end)
  | _ => Returned VUndefined
  end.

(** ** The outside world

    The records below are what the program sends out and gets back. *)

(** The body of the notification ([data] of [notifyEvaluation]). *)
Record notice : Type := mkNotice {
  n_email : js_value;
  n_task : js_value;
  n_round : js_value;
  n_nonce : js_value;
  n_repo_url : string;
  n_commit_sha : string;
  n_pages_url : string
}.

(** [repo.data] of [octokit.repos.createForAuthenticatedUser], at the
    properties the program reads. *)
Record repo_data : Type := mkRepo {
  owner_login : string;
  html_url : string;
  default_branch : string
}.

(** The parameters of one [octokit.repos.createOrUpdateFileContents]. *)
Record file_write : Type := mkWrite {
  fw_owner : string;
  fw_repo : string;
  fw_path : string;
  fw_message : string;
  fw_content : string
}.

(** An OpenAI chat completion: [message.content] of each choice, [None]
    for [null]. *)
Record chat_completion : Type := mkCompletion {
  choices : list (option string)
}.

(** What the evaluation endpoint does with one POST, before axios reads
    it: no response at all (transport error, timeout), or a response. *)
Inductive http_reply : Type :=
| NoResponse (e : js_error)
| Response (status : Z) (body : string).

(** [response] of a resolved [axios.post]. *)
Record axios_response : Type := mkResponse {
  resp_status : Z;
  resp_data : string
}.

Inductive console_arg : Type :=
| AStr (s : string)
| AVal (v : js_value)
| AErr (e : js_error).

(** One interaction with the outside, with the arguments it was given. *)
Inductive effect : Type :=
| ERespond (status : Z) (json : list (string * string))
| EChatCompletion (model : string) (prompt : string)
| EGetAuthenticated
| ECreateRepo (name : string) (auto_init private : bool)
| ESetTimeout (ms : Z)
| EWriteFile (w : file_write)
| ECreatePagesSite (owner repo branch path : string)
| EPost (url : js_value) (data : notice) (timeout : Z)
| EConsoleLog (args : list console_arg)
| EConsoleError (args : list console_arg).

Definition trace : Type := list effect.

Definition is_post (e : effect) : bool :=
  match e with EPost _ _ _ => true | _ => false end.
Definition is_write (e : effect) : bool :=
  match e with EWriteFile _ => true | _ => false end.
Definition is_respond (e : effect) : bool :=
  match e with ERespond _ _ => true | _ => false end.
Definition is_sleep (e : effect) : bool :=
  match e with ESetTimeout _ => true | _ => false end.
Definition is_publish (e : effect) : bool :=
  match e with
  | EGetAuthenticated | ECreateRepo _ _ _ | EWriteFile _ | ECreatePagesSite _ _ _ _ => true
  | _ => false
  end.

Definition count (p : effect -> bool) (tr : trace) : nat := List.length (filter p tr).

(** The answers of the outside during one run of the handler.  The
    program is deterministic, so what a collaborator answers to its k-th
    call is a function of k and of the arguments: the file writes and the
    POSTs, which are repeated, are numbered from 0 by the calls of the same
    kind made before; the others are made at most once in a run. *)
Record World : Type := mkWorld {
  (** [process.env.SECRET_KEY], [None] when unset *)
  SECRET_KEY : option string;
  (** whether the runtime's conversion of a string to a number is above 0 *)
  StringToNumber_positive : string -> bool;
  (** the text the runtime prints for a number that is not a safe integer *)
  Number_toString : Z -> string;
  (** [new Date().getFullYear()] *)
  getFullYear : Z;
  chat_completions_create : string -> string -> outcome chat_completion;
  (** [(await octokit.users.getAuthenticated()).data.login] *)
  users_getAuthenticated : outcome string;
  repos_createForAuthenticatedUser : string -> outcome repo_data;
  repos_createOrUpdateFileContents : nat -> file_write -> outcome unit;
  repos_createPagesSite : string -> string -> outcome unit;
  evaluation_endpoint : nat -> js_value -> notice -> http_reply
}.

(** ** The monad of asynchronous code

    A computation extends the trace of effects made so far and returns or
    throws. *)

Definition M (A : Type) : Type := trace -> outcome A * trace.

Definition ret {A : Type} (a : A) : M A := fun tr => (Returned a, tr).

Definition throw {A : Type} (e : js_error) : M A := fun tr => (Thrown e, tr).

Definition bind {A B : Type} (c : M A) (k : A -> M B) : M B :=
  fun tr =>
    match c tr with
    | (Returned a, tr') => k a tr'
    | (Thrown e, tr') => (Thrown e, tr')
    end.

(** [try { c } catch (error) { h error }] *)
Definition try_catch {A : Type} (c : M A) (h : js_error -> M A) : M A :=
  fun tr =>
    match c tr with
    | (Returned a, tr') => (Returned a, tr')
    | (Thrown e, tr') => h e tr'
    end.

(** A synchronous step that may throw. *)
Definition lift {A : Type} (o : outcome A) : M A := fun tr => (o, tr).

(** An effect with no answer to wait for. *)
Definition perform (e : effect) : M unit := fun tr => (Returned tt, (tr ++ [e])%list).

(** [await] of a call to the outside: the call is made, and the answer
    may depend on the calls made before it. *)
Definition await {A : Type} (e : effect) (answer : trace -> outcome A) : M A :=
  fun tr => (answer tr, (tr ++ [e])%list).

Declare Scope js_scope.
Delimit Scope js_scope with js.
Notation "x <- c ;; k" := (bind c (fun x => k))
  (at level 61, c at next level, right associativity) : js_scope.
Notation "c ;; k" := (bind c (fun _ => k))
  (at level 61, right associativity) : js_scope.
Local Open Scope js_scope.

(** The result of one turn of a loop body: go on with the loop state, or
    leave the enclosing function by [return]. *)
Inductive flow (S R : Type) : Type :=
| Continue (s : S)
| Break (r : R).
Arguments Continue {S R} s.
Arguments Break {S R} r.

(** [for (const x of xs) body], and [for (let i = ...; ...; i++) body] over
    the values [xs] that [i] takes. *)
Fixpoint for_of {A S R : Type} (xs : list A) (body : A -> S -> M (flow S R)) (s : S)
  : M (flow S R) :=
  match xs with
  | [] => ret (Continue s)
  | x :: rest =>
      f <- body x s ;;
      match f with
      | Continue s' => for_of rest body s'
      | Break r => ret (Break r)
      end
  end.

Definition run {A : Type} (c : M A) : outcome A * trace := c [].

(** ** Built-ins of the runtime *)

(** [s.replace(/pat\n?/g, '')]: every occurrence of [pat], with the line
    break that follows it when there is one, is removed, scanning from the
    left.  [skip] characters of the current occurrence are still to drop;
    [nl] says that an occurrence has just ended. *)
Fixpoint remove_all (pat : string) (skip : nat) (nl : bool) (s : string) : string :=
  match s with
  | EmptyString => EmptyString
  | String c rest =>
      match skip with
      | S k => remove_all pat k true rest
      | O =>
          if nl && Ascii.eqb c "010"%char then remove_all pat 0 false rest
          else if String.prefix pat s then remove_all pat (String.length pat - 1) true rest
          else String c (remove_all pat 0 false rest)
      end
  end.

Definition fence : string := "```".

(** [htmlContent.replace(/```html\n?/g, '').replace(/```\n?/g, '')] *)
Definition strip_fences (s : string) : string :=
  remove_all fence 0 false (remove_all (fence ++ "html") 0 false s).

(** A property key that is an array index: the canonical decimal text of
    an integer from 0 to 2^32 - 2. *)
Definition array_index (k : string) : option N :=
  match NilEmpty.uint_of_string k with
  | Some u =>
      let n := N.of_uint u in
      if (n <? 4294967295)%N && String.eqb (NilEmpty.string_of_uint (N.to_uint n)) k
      then Some n else None
  | None => None
  end.

Definition is_index (k : string) : bool :=
  match array_index k with Some _ => true | None => false end.

(** Insertion of an index key into keys sorted by ascending index. *)
Fixpoint insert_index {A : Type} (n : N) (kv : string * A) (l : list (N * (string * A)))
  : list (N * (string * A)) :=
  match l with
  | [] => [(n, kv)]
  | (m, kv') :: rest =>
      if (n <=? m)%N then (n, kv) :: l else (m, kv') :: insert_index n kv rest
  end.

Fixpoint index_entries {A : Type} (obj : list (string * A)) : list (N * (string * A)) :=
  match obj with
  | [] => []
  | (k, v) :: rest =>
      match array_index k with
      | Some n => insert_index n (k, v) (index_entries rest)
      | None => index_entries rest
      end
  end.

(** [Object.entries(obj)]: the own properties in the order of the
    language's property enumeration, array-index keys first in ascending
    numeric order, then the other keys in the order they were created. *)
Definition Object_entries {A : Type} (obj : list (string * A)) : list (string * A) :=
  (map snd (index_entries obj) ++ filter (fun kv => negb (is_index (fst kv))) obj)%list.

Definition base64_alphabet : string :=
  "ABCDEFGHIJKLMNOPQRSTUVWXYZabcdefghijklmnopqrstuvwxyz0123456789+/".

Definition base64_digit (n : N) : string :=
  match String.get (N.to_nat n) base64_alphabet with
  | Some c => String c EmptyString
  | None => EmptyString
  end.

(** [Buffer.from(content).toString('base64')], a string being the bytes
    of its UTF-8 encoding. *)
Fixpoint base64 (s : string) : string :=
  match s with
  | EmptyString => EmptyString
  | String a EmptyString =>
      let x := N_of_ascii a in
      base64_digit (x / 4) ++ base64_digit ((x mod 4) * 16) ++ "=="
  | String a (String b EmptyString) =>
      let x := N_of_ascii a in
      let y := N_of_ascii b in
      base64_digit (x / 4) ++ base64_digit ((x mod 4) * 16 + y / 16)
        ++ base64_digit ((y mod 16) * 4) ++ "="
  | String a (String b (String c rest)) =>
      let x := N_of_ascii a in
      let y := N_of_ascii b in
      let z := N_of_ascii c in
      base64_digit (x / 4) ++ base64_digit ((x mod 4) * 16 + y / 16)
        ++ base64_digit ((y mod 16) * 4 + z / 64) ++ base64_digit (z mod 64)
        ++ base64 rest
  end%N.

(** ** The program *)

Section Server.

Variable world : World.

Definition maxRetries : nat := 5.

Definition MAX_SAFE_INTEGER : Z := 9007199254740991.

(** The text of a number: the decimal digits of a safe integer, with a
    minus sign when it is negative; beyond the safe integers, what the
    runtime prints (digits rounded to the nearest double, an exponent from
    10^21 on). *)
Definition number_text (z : Z) : string :=
  if Z.abs z <=? MAX_SAFE_INTEGER then string_of_Z z else Number_toString world z.

(** The abstract operation ToString, which a template literal applies to
    each substitution.  An array is joined with commas, the elements that
    are [undefined] or [null] giving the empty text.  An object is converted
    through its [toString]: the inherited one gives [[object Object]]; an
    own property of that name, which in a value read from JSON is not a
    function, leaves [valueOf], which gives no primitive: a [TypeError]. *)
Fixpoint ToString (v : js_value) : outcome string :=
  match v with
  | VUndefined => Returned "undefined"
  | VNull => Returned "null"
  | VBool true => Returned "true"
  | VBool false => Returned "false"
  | VNum z => Returned (number_text z)
  | VStr s => Returned s
  | VArr l =>
      outcome_bind
        ((fix texts (l : list js_value) : outcome (list string) :=
            match l with
            | [] => Returned []
            | x :: rest =>
                outcome_bind
                  (match x with
                   | VUndefined | VNull => Returned EmptyString
                   | _ => ToString x
                   end)
                  (fun s => outcome_bind (texts rest) (fun ss => Returned (s :: ss)))
            end) l)
        (fun ss => Returned (join "," ss))
  | VObj props =>
      match lookup "toString" props with
      | Some _ => Thrown (TypeError "Cannot convert object to primitive value")
      | None => Returned "[object Object]"
      end
  end.

(** [x > 0] on a value: the value is converted to a number first, an
    array or an object through its text. *)
Definition js_gt_zero (v : js_value) : outcome bool :=
  match v with
  | VUndefined | VNull => Returned false
  | VBool b => Returned b
  | VNum z => Returned (0 <? z)
  | VStr s => Returned (StringToNumber_positive world s)
  | VArr _ =>
      outcome_bind (ToString v) (fun s => Returned (StringToNumber_positive world s))
  | VObj _ => outcome_bind (ToString v) (fun _ => Returned false)
  end.

(** [v.length] for a value that is neither [undefined] nor [null]; the
    length of a string is counted in bytes here, and only compared with 0. *)
Definition js_length (v : js_value) : js_value :=
  match v with
  | VStr s => VNum (Z.of_nat (String.length s))
  | VArr l => VNum (Z.of_nat (List.length l))
  | VObj props => match lookup "length" props with Some x => x | None => VUndefined end
  | _ => VUndefined
  end.

(** [attachments && attachments.length > 0] *)
Definition has_attachments (attachments : js_value) : outcome bool :=
  if js_truthy attachments then js_gt_zero (js_length attachments) else Returned false.

Fixpoint mapi {A B : Type} (f : nat -> A -> B) (i : nat) (l : list A) : list B :=
  match l with
  | [] => []
  | x :: rest => f i x :: mapi f (S i) rest
  end.

Fixpoint mapi_outcome {A B : Type} (f : nat -> A -> outcome B) (i : nat) (l : list A)
  : outcome (list B) :=
  match l with
  | [] => Returned []
  | x :: rest =>
      outcome_bind (f i x) (fun y =>
      outcome_bind (mapi_outcome f (S i) rest) (fun ys => Returned (y :: ys)))
  end.

Fixpoint map_outcome {A B : Type} (f : A -> outcome B) (l : list A) : outcome (list B) :=
  match l with
  | [] => Returned []
  | x :: rest =>
      outcome_bind (f x) (fun y =>
      outcome_bind (map_outcome f rest) (fun ys => Returned (y :: ys)))
  end.

(** [checks.map((check, i) => `${i + 1}. ${check}`).join('\n')] *)
Definition numbered_checks (checks : js_value) : outcome string :=
  match checks with
  | VArr l =>
      outcome_bind
        (mapi_outcome
           (fun i check => outcome_bind (ToString check)
                             (fun text => Returned (string_of_nat (i + 1) ++ ". " ++ text)))
           0%nat l)
        (fun lines => Returned (join newline lines))
  | VUndefined =>
      Thrown (TypeError "Cannot read properties of undefined (reading 'map')")
  | VNull =>
      Thrown (TypeError "Cannot read properties of null (reading 'map')")
  | _ => Thrown (TypeError "checks.map is not a function")
  end.

(** [attachments.map(a => `- ${a.name}`).join('\n')] *)
Definition attachment_names (attachments : js_value) : outcome string :=
  match attachments with
  | VArr l =>
      outcome_bind
        (map_outcome (fun a => outcome_bind (get_prop a "name") (fun name =>
                               outcome_bind (ToString name) (fun text =>
                               Returned ("- " ++ text)))) l)
        (fun lines => Returned (join newline lines))
  | _ => Thrown (TypeError "attachments.map is not a function")
  end.

(** The prompt of [generateCode]. *)
Definition build_prompt (brief attachments checks : js_value) : outcome string :=
  outcome_bind (ToString brief) (fun brief_text =>
  outcome_bind (numbered_checks checks) (fun requirements =>
  outcome_bind
    (outcome_bind (has_attachments attachments) (fun some =>
     if some
     then outcome_bind (attachment_names attachments)
            (fun names => Returned ("Attachments provided:" ++ newline ++ names))
     else Returned EmptyString))
    (fun provided =>
  Returned ("Create a complete, production-ready single-page web application based on this brief:

" ++ brief_text ++ "

Requirements:
" ++ requirements ++ "

" ++ provided ++ "

Generate a complete HTML file with inline CSS and JavaScript. The app should:
- Be a single index.html file
- Work standalone without external dependencies except CDN libraries
- Include proper error handling
- Be mobile-responsive
- Have clean, professional styling

Return ONLY the HTML code, nothing else.")))).

Definition generateReadme (brief checks : js_value) : outcome string :=
  outcome_bind (ToString brief) (fun brief_text =>
  outcome_bind (numbered_checks checks) (fun features =>
  Returned ("# Project Application

## Summary
" ++ brief_text ++ "

## Setup
1. Clone this repository
2. Open index.html in a web browser

## Usage
Open the deployed GitHub Pages URL or run locally by opening index.html.

## Features
" ++ features ++ "

## Code Explanation
This is a single-page application built with vanilla HTML, CSS, and JavaScript. It uses modern web APIs and follows best practices for:
- Responsive design
- Error handling
- User experience
- Code organization

## License
MIT License - see LICENSE file for details
"))).

Definition getMITLicense : string :=
  let year := getFullYear world in
  "MIT License

Copyright (c) " ++ number_text year ++ "

Permission is hereby granted, free of charge, to any person obtaining a copy
of this software and associated documentation files (the " ++ dquote ++ "Software" ++ dquote ++ "), to deal
in the Software without restriction, including without limitation the rights
to use, copy, modify, merge, publish, distribute, sublicense, and/or sell
copies of the Software, and to permit persons to whom the Software is
furnished to do so, subject to the following conditions:

The above copyright notice and this permission notice shall be included in all
copies or substantial portions of the Software.

THE SOFTWARE IS PROVIDED " ++ dquote ++ "AS IS" ++ dquote ++ ", WITHOUT WARRANTY OF ANY KIND, EXPRESS OR
IMPLIED, INCLUDING BUT NOT LIMITED TO THE WARRANTIES OF MERCHANTABILITY,
FITNESS FOR A PARTICULAR PURPOSE AND NONINFRINGEMENT. IN NO EVENT SHALL THE
AUTHORS OR COPYRIGHT HOLDERS BE LIABLE FOR ANY CLAIM, DAMAGES OR OTHER
LIABILITY, WHETHER IN AN ACTION OF CONTRACT, TORT OR OTHERWISE, ARISING FROM,
OUT OF OR IN CONNECTION WITH THE SOFTWARE OR THE USE OR OTHER DEALINGS IN THE
SOFTWARE.".

(** An ArtifactBundle: the object [generateCode] returns, from file name
    to content, in creation order. *)
Definition bundle : Type := list (string * string).

(** [response.choices[0].message.content], then the first [.replace] on
    it: a [TypeError] when there is no choice or the content is [null]. *)
Definition first_content (response : chat_completion) : outcome string :=
  match choices response with
  | [] => Thrown (TypeError "Cannot read properties of undefined (reading 'message')")
  | None :: _ => Thrown (TypeError "Cannot read properties of null (reading 'replace')")
  | Some content :: _ => Returned content
  end.

(** [if (attachments && attachments.length > 0) attachments.forEach(...)],
    whose callback does nothing. *)
Definition embed_attachments (attachments : js_value) : outcome unit :=
  outcome_bind (has_attachments attachments) (fun some =>
  if some
  then match attachments with
       | VArr _ => Returned tt
       | _ => Thrown (TypeError "attachments.forEach is not a function")
       end
  else Returned tt).

Definition generateCode (brief attachments checks : js_value) : M bundle :=
  prompt <- lift (build_prompt brief attachments checks) ;;
  response <- await (EChatCompletion "gpt-4" prompt)
                (fun _ => chat_completions_create world "gpt-4" prompt) ;;
  content <- lift (first_content response) ;;
  let htmlContent := strip_fences content in
  lift (embed_attachments attachments) ;;
  readme <- lift (generateReadme brief checks) ;;
  ret [ ("index.html", htmlContent);
        ("README.md", readme);
        ("LICENSE", getMITLicense) ].

(** [await new Promise(resolve => setTimeout(resolve, ms))] *)
Definition sleep (ms : Z) : M unit := perform (ESetTimeout ms).

(** One turn of the loop of [createGitHubRepo] over the entries of the
    bundle: the write of one file. *)
Definition write_entry (username repoName : string) (entry : string * string) (_ : unit)
  : M (flow unit unit) :=
  let (filename, content) := entry in
  let w := mkWrite username repoName filename ("Add " ++ filename) (base64 content) in
  await (EWriteFile w)
    (fun tr => repos_createOrUpdateFileContents world (count is_write tr) w) ;;
  ret (Continue tt).

Definition createGitHubRepo (repoName : string) (files : bundle) : M repo_data :=
  username <- await EGetAuthenticated (fun _ => users_getAuthenticated world) ;;
  (* Create repo *)
  repo <- await (ECreateRepo repoName true false)
            (fun _ => repos_createForAuthenticatedUser world repoName) ;;
  (* Wait for repo to initialize *)
  sleep 3000 ;;
  (* Create files *)
  for_of (Object_entries files) (write_entry username repoName) tt ;;
  ret repo.

Definition enableGitHubPages (owner repo : string) : M unit :=
  try_catch
    (await (ECreatePagesSite owner repo "main" "/")
       (fun _ => repos_createPagesSite world owner repo))
    (fun error =>
       match err_status error with
       | Some 409 => ret tt
       | _ => throw error
       end).

(** axios settles a POST by its default [validateStatus]: the promise
    resolves for a status from 200 to 299 and rejects for any other, as it
    does when no response arrives. *)
Definition validateStatus (status : Z) : bool := (200 <=? status) && (status <? 300).

Definition axios_settle (r : http_reply) : outcome axios_response :=
  match r with
  | NoResponse e => Thrown e
  | Response status body =>
      if validateStatus status then Returned (mkResponse status body)
      else Thrown (mkError (Some status)
                     ("Request failed with status code " ++ string_of_Z status))
  end.

Definition axios_post (url : js_value) (data : notice) (timeout : Z) : M axios_response :=
  await (EPost url data timeout)
    (fun tr => axios_settle (evaluation_endpoint world (count is_post tr) url data)).

(** One turn of the loop of [notifyEvaluation], at index [i] with the
    current [delay]. *)
Definition notify_attempt (data : notice) (evaluation_url : js_value)
    (i : nat) (delay : Z) : M (flow Z unit) :=
  try_catch
    (response <- axios_post evaluation_url data 10000 ;;
     if resp_status response =? 200
     then perform (EConsoleLog [AStr "Successfully notified evaluation API"]) ;;
          ret (Break tt)
     else ret (Continue delay))
    (fun error =>
       perform (EConsoleError [AStr ("Attempt " ++ string_of_nat (i + 1) ++ " failed:");
                               AStr (err_message error)]) ;;
       if (i <? maxRetries - 1)%nat
       then sleep delay ;; ret (Continue (delay * 2))
       else ret (Continue delay)).

Definition notifyEvaluation (data : notice) (evaluation_url : js_value) : M unit :=
  let delay := 1000 in
  r <- for_of (seq 0 maxRetries) (notify_attempt data evaluation_url) delay ;;
  match r with
  | Break tt => ret tt
  | Continue _ => throw (Error "Failed to notify evaluation API after retries")
  end.

(** The object the handler hands to [processRequest]. *)
Record build_data : Type := mkData {
  email : js_value;
  task : js_value;
  round : js_value;
  nonce : js_value;
  brief : js_value;
  checks : js_value;
  evaluation_url : js_value;
  attachments : js_value
}.

(** [`${task}-round${round}`]: the conversion of [task], then of [round],
    may throw. *)
Definition repo_name (data : build_data) : outcome string :=
  outcome_bind (ToString (task data)) (fun task_text =>
  outcome_bind (ToString (round data)) (fun round_text =>
  Returned (task_text ++ "-round" ++ round_text))).

Definition pages_url (owner repoName : string) : string :=
  "https://" ++ owner ++ ".github.io/" ++ repoName ++ "/".

(** The [try] block of [processRequest]. *)
Definition processRequest_try (data : build_data) : M unit :=
  (* Step 1: Generate code using LLM *)
  code <- generateCode (brief data) (attachments data) (checks data) ;;
  (* Step 2: Create GitHub repo *)
  repoName <- lift (repo_name data) ;;
  repo <- createGitHubRepo repoName code ;;
  (* Step 3: Enable GitHub Pages *)
  enableGitHubPages (owner_login repo) repoName ;;
  (* Step 4: Wait for Pages to deploy *)
  sleep 30000 ;;
  (* Step 5: Notify evaluation API *)
  let pagesUrl := pages_url (owner_login repo) repoName in
  notifyEvaluation
    (mkNotice (email data) (task data) (round data) (nonce data)
       (html_url repo) (default_branch repo) pagesUrl)
    (evaluation_url data) ;;
  perform (EConsoleLog [AStr "Successfully processed request for task:"; AVal (task data)]).

Definition processRequest (data : build_data) : M unit :=
  try_catch (processRequest_try data)
    (fun error =>
       perform (EConsoleError [AStr "Error processing request:"; AErr error])).

(** [secret !== process.env.SECRET_KEY]: strict inequality of a request
    value and an environment entry, which is a string or [undefined]. *)
Definition strict_neq_env (secret : js_value) (configured : option string) : bool :=
  match secret, configured with
  | VUndefined, None => false
  | VStr s, Some k => negb (String.eqb s k)
  | _, _ => true
  end.

(** Calling an [async] function without [await]: it runs, and whatever it
    throws rejects a promise nobody holds. *)
Definition detached (c : M unit) : M unit :=
  fun tr => (Returned tt, snd (c tr)).

(** [res.headersSent] *)
Definition headersSent (tr : trace) : bool := existsb is_respond tr.

(** One name of [const { ... } = req.body]: destructuring throws on
    [undefined] and [null]. *)
Definition destructure (body : js_value) (name : string) : outcome js_value :=
  match body with
  | VUndefined | VNull =>
      Thrown (TypeError ("Cannot destructure property '" ++ name ++ "' of 'req.body' as it is "
                           ++ (match body with VNull => "null" | _ => "undefined" end)
                           ++ "."))
  | _ => get_prop body name
  end.

(** The handler of [POST /api/build], on [req.body]. *)
Definition build_handler (body : js_value) : M unit :=
  try_catch
    (email <- lift (destructure body "email") ;;
     secret <- lift (destructure body "secret") ;;
     task <- lift (destructure body "task") ;;
     round <- lift (destructure body "round") ;;
     nonce <- lift (destructure body "nonce") ;;
     brief <- lift (destructure body "brief") ;;
     checks <- lift (destructure body "checks") ;;
     evaluation_url <- lift (destructure body "evaluation_url") ;;
     attachments <- lift (destructure body "attachments") ;;
     if strict_neq_env secret (SECRET_KEY world)
     then perform (ERespond 403 [("error", "Invalid secret")])
     else
       perform (ERespond 200 [("message", "Request received, processing...")]) ;;
       detached (processRequest
                   (mkData email task round nonce brief checks evaluation_url attachments)))
    (fun error =>
       perform (EConsoleError [AStr "Error:"; AErr error]) ;;
       fun tr =>
         if headersSent tr then ret tt tr
         else perform (ERespond 500 [("error", err_message error)]) tr).

End Server.

(** * Properties

    The vocabulary of the statements first, then sample worlds, then the
    lemmas and the theorems. *)

Local Open Scope list_scope.

(** ** Vocabulary *)

(** The POSTs and the timers of a trace, in order: the attempts of a
    delivery and the delays between them. *)
Definition schedule (tr : trace) : trace :=
  filter (fun e => is_post e || is_sleep e) tr.

(** axios rejects the promise of this reply. *)
Definition axios_rejects (r : http_reply) : bool :=
  match r with
  | NoResponse _ => true
  | Response status _ => negb (validateStatus status)
  end.

(** The delays between [n + 1] attempts that start with [delay]. *)
Definition backoff (url : js_value) (data : notice) (delay : Z) (n : nat) : trace :=
  flat_map (fun k => [EPost url data 10000; ESetTimeout (delay * 2 ^ Z.of_nat k)]) (seq 0 n).

(** ** What a computation adds to the trace

    [emits P Q c]: from any trace, [c] only appends effects, each of them
    satisfies [P], and a returned value satisfies [Q]. *)

Definition emits {A : Type} (P : effect -> Prop) (Q : A -> Prop) (c : M A) : Prop :=
  forall tr, exists new,
    snd (c tr) = tr ++ new
    /\ Forall P new
    /\ (forall a, fst (c tr) = Returned a -> Q a).

Definition any {A : Type} : A -> Prop := fun _ => True.

(** The notice of a request and of the repository created for it under
    [name]. *)
Definition notice_of (data : build_data) (name : string) (repo : repo_data) : notice :=
  mkNotice (email data) (task data) (round data) (nonce data)
    (html_url repo) (default_branch repo)
    (pages_url (owner_login repo) name).

(** What an effect of the pipeline of [data] looks like: no HTTP response,
    a repository named after the request, and POSTs of the one notice. *)
Definition pipeline_effect (w : World) (data : build_data) (e : effect) : Prop :=
  match e with
  | ERespond _ _ => False
  | ECreateRepo name _ _ => repo_name w data = Returned name
  | EPost url d _ =>
      url = evaluation_url data
      /\ exists name repo,
           repo_name w data = Returned name
           /\ repos_createForAuthenticatedUser w name = Returned repo
           /\ d = notice_of data name repo
  | _ => True
  end.

(** The files written in a trace, in order. *)
Definition written (tr : trace) : list file_write :=
  flat_map (fun e => match e with EWriteFile f => [f] | _ => [] end) tr.

(** The write the publisher makes for one entry of the bundle. *)
Definition write_of (username repoName : string) (entry : string * string) : file_write :=
  mkWrite username repoName (fst entry) ("Add " ++ fst entry)%string (base64 (snd entry)).

Definition no_entry : string * string := (EmptyString, EmptyString).

Definition write_effect (username repoName : string) (entry : string * string) : effect :=
  EWriteFile (write_of username repoName entry).

(** The value the handler's destructuring gives to one name. *)
Definition field (body : js_value) (name : string) : js_value :=
  match get_prop body name with
  | Returned v => v
  | Thrown _ => VUndefined
  end.

(** The object the handler passes to the pipeline for [req.body]. *)
Definition data_of (body : js_value) : build_data :=
  mkData (field body "email") (field body "task") (field body "round")
    (field body "nonce") (field body "brief") (field body "checks")
    (field body "evaluation_url") (field body "attachments").

Definition acknowledgment : effect :=
  ERespond 200 [("message", "Request received, processing...")%string].

Definition forbidden : effect := ERespond 403 [("error", "Invalid secret")%string].

(** ** Vocabulary of the further properties *)

Definition backtick : ascii := "096"%char.

(** The number of backticks a string starts with. *)
Fixpoint lead (s : string) : nat :=
  match s with
  | EmptyString => 0%nat
  | String c rest => if Ascii.eqb c backtick then S (lead rest) else 0%nat
  end.

(** [s.includes(pat)] *)
Fixpoint contains (pat s : string) : bool :=
  String.prefix pat s
  || match s with
     | EmptyString => false
     | String _ rest => contains pat rest
     end.

(** The timers of a trace. *)
Definition sleeps (tr : trace) : trace := filter is_sleep tr.

(** The milliseconds a trace spends in timers. *)
Fixpoint total_delay (tr : trace) : Z :=
  match tr with
  | [] => 0
  | ESetTimeout ms :: rest => ms + total_delay rest
  | _ :: rest => total_delay rest
  end.

Definition success_log : effect :=
  EConsoleLog [AStr "Successfully notified evaluation API"].

(** The line logged for the failed attempt number [k]. *)
Definition attempt_failed (k : nat) (e : js_error) : effect :=
  EConsoleError [AStr ("Attempt " ++ string_of_nat k ++ " failed:"); AStr (err_message e)].

(** Every timer of [new] is immediately followed by a POST of [data] to
    [url]. *)
Definition timers_then_post (url : js_value) (data : notice) (new : trace) : Prop :=
  forall before ms after,
    new = before ++ ESetTimeout ms :: after ->
    exists rest, after = EPost url data 10000 :: rest.

(** Every POST of [new] that axios rejects is immediately followed by the
    log line of that attempt; [base] POSTs were made before [new], and the
    first attempt of [new] has index [i] in the loop. *)
Definition rejections_logged (w : World) (url : js_value) (data : notice)
    (base i : nat) (new : trace) : Prop :=
  forall before after e,
    new = before ++ EPost url data 10000 :: after ->
    axios_settle (evaluation_endpoint w (base + count is_post before) url data) = Thrown e ->
    exists rest, after = attempt_failed (i + count is_post before + 1) e :: rest.


(** [a] may stand before [b] among the entries of an object: an array
    index before any other key, and two array indices in ascending order. *)
Definition entry_before {A : Type} (a b : string * A) : Prop :=
  match array_index (fst a), array_index (fst b) with
  | Some n, Some m => (n <= m)%N
  | Some _, None => True
  | None, Some _ => False
  | None, None => True
  end.

(** The text of a returned string, empty for a throw. *)
Definition returned_text (o : outcome string) : string :=
  match o with
  | Returned s => s
  | Thrown _ => EmptyString
  end.

(** ** Sample worlds

    Concrete collaborators, on which the program is run below. *)

Definition Ok200 : http_reply := Response 200 "ok".

(** Every collaborator answers; the endpoint answers 200 at once. *)
Definition happy_world : World :=
  mkWorld (Some "s3cret") (fun _ => false) string_of_Z 2025
    (fun _ _ => Returned (mkCompletion [Some "<h1>hi</h1>"]))
    (Returned "octocat")
    (fun name => Returned (mkRepo "octocat" ("https://github.com/octocat/" ++ name)%string "main"))
    (fun _ _ => Returned tt)
    (fun _ _ => Returned tt)
    (fun _ _ _ => Ok200).

Definition with_endpoint (w : World) (replies : nat -> http_reply) : World :=
  mkWorld (SECRET_KEY w) (StringToNumber_positive w) (Number_toString w) (getFullYear w)
    (chat_completions_create w) (users_getAuthenticated w)
    (repos_createForAuthenticatedUser w) (repos_createOrUpdateFileContents w)
    (repos_createPagesSite w) (fun k _ _ => replies k).

Definition with_completion (w : World) (answer : outcome chat_completion) : World :=
  mkWorld (SECRET_KEY w) (StringToNumber_positive w) (Number_toString w) (getFullYear w)
    (fun _ _ => answer) (users_getAuthenticated w)
    (repos_createForAuthenticatedUser w) (repos_createOrUpdateFileContents w)
    (repos_createPagesSite w) (evaluation_endpoint w).

Definition with_writes (w : World) (answers : nat -> outcome unit) : World :=
  mkWorld (SECRET_KEY w) (StringToNumber_positive w) (Number_toString w) (getFullYear w)
    (chat_completions_create w) (users_getAuthenticated w)
    (repos_createForAuthenticatedUser w) (fun k _ => answers k)
    (repos_createPagesSite w) (evaluation_endpoint w).

Definition with_pages (w : World) (answer : outcome unit) : World :=
  mkWorld (SECRET_KEY w) (StringToNumber_positive w) (Number_toString w) (getFullYear w)
    (chat_completions_create w) (users_getAuthenticated w)
    (repos_createForAuthenticatedUser w) (repos_createOrUpdateFileContents w)
    (fun _ _ => answer) (evaluation_endpoint w).

Definition with_secret (w : World) (key : option string) : World :=
  mkWorld key (StringToNumber_positive w) (Number_toString w) (getFullYear w)
    (chat_completions_create w) (users_getAuthenticated w)
    (repos_createForAuthenticatedUser w) (repos_createOrUpdateFileContents w)
    (repos_createPagesSite w) (evaluation_endpoint w).

(** The request of the end-to-end scenario: task t1, round 2. *)
Definition sample_body : js_value :=
  VObj [ ("email", VStr "a@example.com"); ("secret", VStr "s3cret");
         ("task", VStr "t1"); ("round", VNum 2); ("nonce", VStr "n-1");
         ("brief", VStr "A counter"); ("checks", VArr [VStr "a"; VStr "b"]);
         ("evaluation_url", VStr "https://eval.example/notify") ].

Definition sample_data : build_data :=
  mkData (VStr "a@example.com") (VStr "t1") (VNum 2) (VStr "n-1")
    (VStr "A counter") (VArr [VStr "a"; VStr "b"])
    (VStr "https://eval.example/notify") VUndefined.

Definition sample_notice : notice :=
  mkNotice (VStr "a@example.com") (VStr "t1") (VNum 2) (VStr "n-1")
    "https://github.com/octocat/t1-round2" "main" "https://octocat.github.io/t1-round2/".

Definition sample_url : js_value := VStr "https://eval.example/notify".

(** An endpoint that answers 503 to the first [n] POSTs and 200 after. *)
Definition flaky (n : nat) (k : nat) : http_reply :=
  if (k <? n)%nat then Response 503 "busy" else Ok200.

Definition failing_second_write : World :=
  with_writes happy_world
    (fun k => if (k =? 1)%nat then Thrown (mkError (Some 422) "Unprocessable") else Returned tt).

Definition sample_bundle : bundle :=
  [ ("index.html", "<h1>hi</h1>"); ("README.md", "# r"); ("LICENSE", "MIT") ].

Definition body_without_secret : js_value :=
  VObj [ ("email", VStr "a@example.com"); ("task", VStr "t1"); ("round", VNum 2);
         ("nonce", VStr "n-1"); ("brief", VStr "A counter");
         ("checks", VArr [VStr "a"; VStr "b"]);
         ("evaluation_url", VStr "https://eval.example/notify") ].

(** The repository name is already taken: its creation is refused. *)
Definition name_taken : World :=
  mkWorld (SECRET_KEY happy_world) (StringToNumber_positive happy_world)
    (Number_toString happy_world) (getFullYear happy_world) (chat_completions_create happy_world)
    (users_getAuthenticated happy_world)
    (fun _ => Thrown (mkError (Some 422) "name already exists on this account"))
    (repos_createOrUpdateFileContents happy_world) (repos_createPagesSite happy_world)
    (evaluation_endpoint happy_world).

(** ** Traces *)

Lemma count_app (p : effect -> bool) (a b : trace) :
  count p (a ++ b) = (count p a + count p b)%nat.
Proof. unfold count. now rewrite filter_app, length_app. Qed.

Lemma schedule_app (a b : trace) : schedule (a ++ b) = (schedule a ++ schedule b)%list.
Proof. apply filter_app. Qed.

(** ** The notifier *)

Lemma axios_rejects_thrown (r : http_reply) :
  axios_rejects r = true -> exists e, axios_settle r = Thrown e.
Proof.
  destruct r as [e | status body]; simpl; intros H.
  - now exists e.
  - apply negb_true_iff in H. rewrite H. eauto.
Qed.

Section Attempt.

Variable w : World.
Variable data : notice.
Variable url : js_value.

Lemma notify_attempt_200 (i : nat) (delay : Z) (tr : trace) (body : string) :
  evaluation_endpoint w (count is_post tr) url data = Response 200 body ->
  notify_attempt w data url i delay tr =
    (Returned (Break tt),
     (tr ++ [EPost url data 10000;
             EConsoleLog [AStr "Successfully notified evaluation API"]])%list).
Proof.
  intros H. unfold notify_attempt, try_catch, bind, axios_post, await, perform, ret.
  rewrite H. simpl. now rewrite <- app_assoc.
Qed.

Lemma notify_attempt_resolved_other (i : nat) (delay : Z) (tr : trace)
    (status : Z) (body : string) :
  evaluation_endpoint w (count is_post tr) url data = Response status body ->
  validateStatus status = true -> status <> 200 ->
  notify_attempt w data url i delay tr =
    (Returned (Continue delay), (tr ++ [EPost url data 10000])%list).
Proof.
  intros H V N. unfold notify_attempt, try_catch, bind, axios_post, await, perform, ret.
  rewrite H. simpl. rewrite V. simpl.
  apply Z.eqb_neq in N. now rewrite N.
Qed.

Lemma notify_attempt_rejected (i : nat) (delay : Z) (tr : trace) :
  axios_rejects (evaluation_endpoint w (count is_post tr) url data) = true ->
  exists msg,
    notify_attempt w data url i delay tr =
      if (i <? maxRetries - 1)%nat
      then (Returned (Continue (delay * 2)),
            (tr ++ [EPost url data 10000; EConsoleError msg; ESetTimeout delay])%list)
      else (Returned (Continue delay),
            (tr ++ [EPost url data 10000; EConsoleError msg])%list).
Proof.
  intros H. destruct (axios_rejects_thrown _ H) as [e He].
  exists [AStr ("Attempt " ++ string_of_nat (i + 1) ++ " failed:")%string; AStr (err_message e)].
  unfold notify_attempt, try_catch, bind, axios_post, await, perform, ret, sleep.
  rewrite He.
  destruct (i <? maxRetries - 1)%nat; unfold perform; rewrite <- !app_assoc; reflexivity.
Qed.

Lemma backoff_S (delay : Z) (n : nat) :
  backoff url data delay (S n) =
    (EPost url data 10000 :: ESetTimeout delay :: backoff url data (delay * 2) n)%list.
Proof.
  unfold backoff. rewrite <- cons_seq, <- seq_shift. cbn [flat_map app].
  rewrite flat_map_concat_map, map_map, <- flat_map_concat_map.
  change (Z.of_nat 0) with 0. rewrite Z.pow_0_r, Z.mul_1_r.
  do 2 f_equal. apply flat_map_ext. intros k.
  replace (Z.of_nat (S k)) with (1 + Z.of_nat k) by lia.
  rewrite Z.pow_add_r by lia. now rewrite Z.mul_assoc.
Qed.

(** [n] rejected attempts in a row, none of them the last of the loop:
    each is followed by the current delay, which then doubles. *)
Lemma rejected_attempts (n : nat) :
  forall (i : nat) (delay : Z) (tr : trace),
    (i + n <= maxRetries - 1)%nat ->
    (forall j, (j < n)%nat ->
       axios_rejects (evaluation_endpoint w (count is_post tr + j) url data) = true) ->
    exists new,
      (forall rest,
         for_of (seq i n ++ rest) (notify_attempt w data url) delay tr =
         for_of rest (notify_attempt w data url) (delay * 2 ^ Z.of_nat n) (tr ++ new)%list)
      /\ count is_post new = n
      /\ schedule new = backoff url data delay n.
Proof.
  induction n as [| n IH]; intros i delay tr Hi Hrej.
  - exists []. repeat split. intros rest. simpl. now rewrite app_nil_r, Z.mul_1_r.
  - assert (H0 : axios_rejects (evaluation_endpoint w (count is_post tr) url data) = true).
    { rewrite <- (Nat.add_0_r (count is_post tr)). apply Hrej. lia. }
    destruct (notify_attempt_rejected i delay tr H0) as [msg Hstep].
    assert (Hlt : (i <? maxRetries - 1)%nat = true) by (apply Nat.ltb_lt; lia).
    rewrite Hlt in Hstep.
    set (tr1 := (tr ++ [EPost url data 10000; EConsoleError msg; ESetTimeout delay])%list) in *.
    assert (Hc : count is_post tr1 = S (count is_post tr)).
    { unfold tr1. rewrite count_app.
      change (count is_post [EPost url data 10000; EConsoleError msg; ESetTimeout delay])
        with 1%nat. lia. }
    destruct (IH (S i) (delay * 2) tr1) as [new [Hrun [Hcount Hsched]]]; [lia | |].
    { intros j Hj. rewrite Hc. replace (S (count is_post tr) + j)%nat
        with (count is_post tr + S j)%nat by lia. apply Hrej. lia. }
    exists ([EPost url data 10000; EConsoleError msg; ESetTimeout delay] ++ new)%list.
    split; [| split].
    + intros rest. cbn [seq app for_of]. unfold bind at 1. rewrite Hstep.
      rewrite Hrun. f_equal.
      * replace (Z.of_nat (S n)) with (1 + Z.of_nat n) by lia.
        rewrite Z.pow_add_r by lia. now rewrite Z.mul_assoc.
      * unfold tr1. now rewrite <- app_assoc.
    + rewrite count_app, Hcount. reflexivity.
    + rewrite schedule_app, Hsched, backoff_S. reflexivity.
Qed.

End Attempt.

(** C1 (as amended): an attempt of the notifier ends the delivery with
    success exactly when the response's status is 200: a response of the
    2xx class with another status does not count, a 404 or a 500 response
    is a failure (the loop goes on), and the body of the response plays no
    part, the outcome being the same for every body. *)
Theorem notify_success_iff_status_200 :
  forall (w : World) (data : notice) (url : js_value) (i : nat) (delay : Z)
         (tr : trace) (status : Z) (body : string),
    evaluation_endpoint w (count is_post tr) url data = Response status body ->
    (fst (notify_attempt w data url i delay tr) = Returned (Break tt) <-> status = 200)
    /\ (status = 404 \/ status = 500 ->
        exists d, fst (notify_attempt w data url i delay tr) = Returned (Continue d)).
Proof.
  intros w data url i delay tr status body H. split; [split |].
  - intros Hs. destruct (Z.eq_dec status 200) as [E | N]; [exact E | exfalso].
    destruct (validateStatus status) eqn:V.
    + rewrite (notify_attempt_resolved_other w data url i delay tr status body H V N) in Hs.
      discriminate.
    + destruct (notify_attempt_rejected w data url i delay tr) as [msg Hr].
      { rewrite H. simpl. now rewrite V. }
      rewrite Hr in Hs. destruct (i <? maxRetries - 1)%nat; discriminate.
  - intros ->. now rewrite (notify_attempt_200 w data url i delay tr body H).
  - intros Hs. destruct (notify_attempt_rejected w data url i delay tr) as [msg Hr].
    { rewrite H. destruct Hs as [-> | ->]; reflexivity. }
    rewrite Hr. destruct (i <? maxRetries - 1)%nat; simpl; eauto.
Qed.

(** C1 at work: a 200 response to the first attempt ends the delivery. *)
Lemma notify_success_iff_status_200_witness :
  evaluation_endpoint happy_world (count is_post []) sample_url sample_notice
    = Response 200 "ok"
  /\ (fst (notify_attempt happy_world sample_notice sample_url 0 1000 [])
        = Returned (Break tt) <-> 200 = 200).
Proof.
  split; [reflexivity |].
  exact (proj1 (notify_success_iff_status_200 happy_world sample_notice sample_url
                  0%nat 1000 [] 200 "ok"%string eq_refl)).
Defined.

(** C1 as stated fails: 201 is a status of the 2xx class, and a 201
    response is not judged a success; the notifier goes on to POST again,
    five times in all, and then throws. *)
Lemma status_201_not_success :
  let w := with_endpoint happy_world (fun _ => Response 201 "created") in
  (200 <= 201 < 300)
  /\ fst (notify_attempt w sample_notice sample_url 0 1000 []) = Returned (Continue 1000)
  /\ run (notifyEvaluation w sample_notice sample_url) =
       (Thrown (Error "Failed to notify evaluation API after retries"),
        repeat (EPost sample_url sample_notice 10000) 5)
  /\ ~ (forall (w : World) (data : notice) (url : js_value) (i : nat) (delay : Z)
               (tr : trace) (status : Z) (body : string),
          evaluation_endpoint w (count is_post tr) url data = Response status body ->
          (fst (notify_attempt w data url i delay tr) = Returned (Break tt)
           <-> 200 <= status < 300)).
Proof.
  cbv zeta. split; [lia | split; [reflexivity | split; [reflexivity |]]].
  intros H.
  specialize (H (with_endpoint happy_world (fun _ => Response 201 "created"%string))
                sample_notice sample_url 0%nat 1000 [] 201 "created"%string eq_refl).
  destruct H as [_ H]. specialize (H ltac:(lia)). discriminate H.
Qed.

(** C2 (as amended): when axios rejects the first N attempts (N < 5; no
    response, a timeout, or a status outside 2xx) and the next attempt is
    answered with status 200, the notifier makes exactly N+1 POSTs,
    separated by delays of 1000 ms, 2000 ms, 4000 ms, ... doubling each
    time, and returns; when axios rejects every attempt, it makes exactly
    5 POSTs, separated by delays of 1, 2, 4 and 8 seconds, and throws the
    error of a failed delivery. *)
Theorem notify_backoff_schedule :
  forall (w : World) (data : notice) (url : js_value) (tr : trace),
    (forall N : nat,
        (N < 5)%nat ->
        (forall i, (i < N)%nat ->
           axios_rejects (evaluation_endpoint w (count is_post tr + i) url data) = true) ->
        (exists body,
           evaluation_endpoint w (count is_post tr + N) url data = Response 200 body) ->
        exists new,
          notifyEvaluation w data url tr = (Returned tt, tr ++ new)
          /\ count is_post new = (N + 1)%nat
          /\ schedule new =
               flat_map (fun k => [EPost url data 10000; ESetTimeout (1000 * 2 ^ Z.of_nat k)])
                 (seq 0 N) ++ [EPost url data 10000])
    /\ ((forall i, (i < 5)%nat ->
           axios_rejects (evaluation_endpoint w (count is_post tr + i) url data) = true) ->
        exists new,
          notifyEvaluation w data url tr =
            (Thrown (Error "Failed to notify evaluation API after retries"), tr ++ new)
          /\ count is_post new = 5%nat
          /\ schedule new =
               [EPost url data 10000; ESetTimeout 1000;
                EPost url data 10000; ESetTimeout 2000;
                EPost url data 10000; ESetTimeout 4000;
                EPost url data 10000; ESetTimeout 8000;
                EPost url data 10000]).
Proof.
  intros w data url tr. split.
  - intros N HN Hrej [body Hok].
    destruct (rejected_attempts w data url N 0 1000 tr) as [new [Hrun [Hcount Hsched]]];
      [unfold maxRetries; lia | exact Hrej |].
    exists (new ++ [EPost url data 10000;
                    EConsoleLog [AStr "Successfully notified evaluation API"]]).
    split; [| split].
    + unfold notifyEvaluation, bind.
      replace (seq 0 maxRetries) with (seq 0 N ++ N :: seq (S N) (maxRetries - S N)).
      2:{ change (N :: seq (S N) (maxRetries - S N)) with (seq N (S (maxRetries - S N))).
          rewrite <- seq_app. f_equal. unfold maxRetries. lia. }
      rewrite Hrun. cbn [for_of]. unfold bind.
      rewrite (notify_attempt_200 w data url N _ (tr ++ new) body).
      * unfold ret. now rewrite <- app_assoc.
      * rewrite count_app, Hcount. exact Hok.
    + rewrite count_app, Hcount. reflexivity.
    + rewrite schedule_app, Hsched. reflexivity.
  - intros Hrej.
    destruct (rejected_attempts w data url 4 0 1000 tr) as [new [Hrun [Hcount Hsched]]];
      [unfold maxRetries; lia | intros j Hj; apply Hrej; lia |].
    destruct (notify_attempt_rejected w data url 4 (1000 * 2 ^ Z.of_nat 4) (tr ++ new))
      as [msg Hlast].
    { rewrite count_app, Hcount. apply Hrej. lia. }
    exists (new ++ [EPost url data 10000; EConsoleError msg]).
    split; [| split].
    + unfold notifyEvaluation, bind.
      change (seq 0 maxRetries) with (seq 0 4 ++ [4%nat]).
      rewrite Hrun. cbn [for_of]. unfold bind. rewrite Hlast.
      cbn. unfold throw. now rewrite <- app_assoc.
    + rewrite count_app, Hcount. reflexivity.
    + rewrite schedule_app, Hsched. reflexivity.
Qed.

(** C2 at work: two 503 responses, then 200: three POSTs, delays of 1000
    and 2000 ms. *)
Lemma notify_backoff_schedule_witness :
  exists new,
    notifyEvaluation (with_endpoint happy_world (flaky 2)) sample_notice sample_url [] =
      (Returned tt, [] ++ new)
    /\ count is_post new = (2 + 1)%nat
    /\ schedule new =
         flat_map (fun k => [EPost sample_url sample_notice 10000;
                             ESetTimeout (1000 * 2 ^ Z.of_nat k)]) (seq 0 2)
           ++ [EPost sample_url sample_notice 10000].
Proof.
  apply (proj1 (notify_backoff_schedule (with_endpoint happy_world (flaky 2))
                  sample_notice sample_url []) 2%nat).
  - lia.
  - intros i Hi. destruct i as [| [| i]]; [reflexivity | reflexivity | lia].
  - exists "ok"%string. reflexivity.
Defined.

(** C2 as stated fails: an endpoint that succeeds in the sense of the
    2xx class on the very first attempt (N = 0), with status 204, is
    POSTed to five times, not once, with no delay in between, and the
    delivery is reported as failed. *)
Lemma status_204_first_attempt_retried :
  let w := with_endpoint happy_world (fun _ => Response 204 EmptyString) in
  axios_rejects (evaluation_endpoint w 0 sample_url sample_notice) = false
  /\ count is_post (snd (run (notifyEvaluation w sample_notice sample_url))) = 5%nat
  /\ count is_sleep (snd (run (notifyEvaluation w sample_notice sample_url))) = 0%nat
  /\ fst (run (notifyEvaluation w sample_notice sample_url)) =
       Thrown (Error "Failed to notify evaluation API after retries")
  /\ ~ (forall (w : World) (data : notice) (url : js_value) (N : nat),
          (N < 5)%nat ->
          (forall i, (i < N)%nat ->
             axios_rejects (evaluation_endpoint w i url data) = true) ->
          axios_rejects (evaluation_endpoint w N url data) = false ->
          count is_post (snd (run (notifyEvaluation w data url))) = (N + 1)%nat).
Proof.
  cbv zeta. repeat (split; [reflexivity |]).
  intros H.
  specialize (H (with_endpoint happy_world (fun _ => Response 204 EmptyString))
                sample_notice sample_url 0%nat ltac:(lia)).
  discriminate H; [intros i Hi; lia | reflexivity].
Qed.

Section Emits.

Context {A B : Type}.
Variable P : effect -> Prop.

Lemma emits_ret (Q : A -> Prop) (a : A) : Q a -> emits P Q (ret a).
Proof.
  intros Ha tr. exists []. simpl. rewrite app_nil_r. repeat split; auto.
  intros a' E. now inversion E; subst.
Qed.

Lemma emits_throw (Q : A -> Prop) (e : js_error) : emits P Q (throw e).
Proof.
  intros tr. exists []. simpl. rewrite app_nil_r. repeat split; auto. discriminate.
Qed.

Lemma emits_lift (o : outcome A) : emits P any (lift o).
Proof.
  intros tr. exists []. simpl. rewrite app_nil_r. repeat split; auto.
Qed.

Lemma emits_perform (e : effect) : P e -> emits P any (perform e).
Proof.
  intros He tr. exists [e]. simpl. repeat split; auto.
Qed.

Lemma emits_await (e : effect) (answer : trace -> outcome A) :
  P e -> emits P any (await e answer).
Proof.
  intros He tr. exists [e]. simpl. repeat split; auto.
Qed.

Lemma emits_bind (Q1 : A -> Prop) (Q : B -> Prop) (c : M A) (k : A -> M B) :
  emits P Q1 c -> (forall a, Q1 a -> emits P Q (k a)) -> emits P Q (bind c k).
Proof.
  intros Hc Hk tr. destruct (Hc tr) as [n1 [E1 [F1 R1]]]. unfold bind.
  destruct (c tr) as [[a | e] tr1]; simpl in *; subst tr1.
  - destruct (Hk a (R1 a eq_refl) (tr ++ n1)) as [n2 [E2 [F2 R2]]].
    exists (n1 ++ n2). rewrite E2, app_assoc. repeat split; auto.
    now apply Forall_app.
  - exists n1. repeat split; auto. discriminate.
Qed.

Lemma emits_try_catch (Q : A -> Prop) (c : M A) (h : js_error -> M A) :
  emits P Q c -> (forall e, emits P Q (h e)) -> emits P Q (try_catch c h).
Proof.
  intros Hc Hh tr. destruct (Hc tr) as [n1 [E1 [F1 R1]]]. unfold try_catch.
  destruct (c tr) as [[a | e] tr1]; simpl in *; subst tr1.
  - exists n1. repeat split; auto.
  - destruct (Hh e (tr ++ n1)) as [n2 [E2 [F2 R2]]].
    exists (n1 ++ n2). rewrite E2, app_assoc. repeat split; auto.
    now apply Forall_app.
Qed.

Lemma emits_post (Q : A -> Prop) (c : M A) :
  emits P any c -> (forall tr a, fst (c tr) = Returned a -> Q a) -> emits P Q c.
Proof.
  intros Hc HQ tr. destruct (Hc tr) as [new [E [F _]]].
  exists new. repeat split; eauto.
Qed.

End Emits.

Lemma emits_for_of {X S R : Type} (P : effect -> Prop)
    (body : X -> S -> M (flow S R)) (xs : list X) :
  (forall x s, emits P any (body x s)) ->
  forall s, emits P any (for_of xs body s).
Proof.
  intros Hbody. induction xs as [| x xs IH]; intros s; cbn [for_of].
  - now apply emits_ret.
  - apply emits_bind with (Q1 := any); [apply Hbody |].
    intros [s' | r] _; [apply IH | now apply emits_ret].
Qed.

Ltac emits_step :=
  match goal with
  | |- emits _ _ (ret _) => apply emits_ret; exact I
  | |- emits _ _ (throw _) => apply emits_throw
  | |- emits _ _ (lift _) => apply emits_lift
  | |- emits _ _ (perform _) => apply emits_perform
  | |- emits _ _ (sleep _) => apply emits_perform
  | |- emits _ _ (await _ _) => apply emits_await
  | |- emits _ _ (bind _ _) => apply emits_bind with (Q1 := any); [| intros ? _]
  | |- emits _ _ (try_catch _ _) => apply emits_try_catch; [| intros ?]
  | |- emits _ _ (for_of _ _ _) => apply emits_for_of; intros ? ?
  | |- emits _ _ (if ?b then _ else _) => destruct b
  | |- emits _ _ (match ?x with _ => _ end) => destruct x
  | |- emits _ _ (let (_, _) := ?x in _) => destruct x
  end.

Ltac emits_auto := repeat emits_step; auto.

Section Stages.

Variable w : World.
Variable P : effect -> Prop.

Lemma emits_generateCode (brief attachments checks : js_value) :
  (forall model prompt, P (EChatCompletion model prompt)) ->
  emits P any (generateCode w brief attachments checks).
Proof. intros H. unfold generateCode. emits_auto. Qed.

Lemma emits_createGitHubRepo (repoName : string) (files : bundle) :
  P EGetAuthenticated -> P (ECreateRepo repoName true false) ->
  P (ESetTimeout 3000) -> (forall wr, P (EWriteFile wr)) ->
  emits P any (createGitHubRepo w repoName files).
Proof. intros H1 H2 H3 H4. unfold createGitHubRepo, write_entry. emits_auto. Qed.

Lemma emits_enableGitHubPages (owner repo : string) :
  P (ECreatePagesSite owner repo "main" "/") ->
  emits P any (enableGitHubPages w owner repo).
Proof. intros H. unfold enableGitHubPages. emits_auto. Qed.

Lemma emits_notifyEvaluation (data : notice) (url : js_value) :
  P (EPost url data 10000) ->
  P success_log -> (forall k e, P (attempt_failed k e)) ->
  (forall ms, P (ESetTimeout ms)) ->
  emits P any (notifyEvaluation w data url).
Proof.
  intros H1 H2 H3 H4. unfold notifyEvaluation, notify_attempt, axios_post. emits_auto.
  apply H3.
Qed.

End Stages.

(** ** The pipeline *)

Lemma createGitHubRepo_returns (w : World) (name : string) (files : bundle)
    (tr : trace) (repo : repo_data) :
  fst (createGitHubRepo w name files tr) = Returned repo ->
  repos_createForAuthenticatedUser w name = Returned repo.
Proof.
  unfold createGitHubRepo, bind, await, sleep, perform.
  destruct (users_getAuthenticated w) as [username | e]; [| discriminate].
  destruct (repos_createForAuthenticatedUser w name) as [r | e]; [| discriminate].
  match goal with |- context [for_of ?l ?b ?s ?t] => destruct (for_of l b s t) as [[f | e] tr'] end;
    simpl; intros H; now inversion H.
Qed.

Lemma emits_lift_returned {A : Type} (P : effect -> Prop) (o : outcome A) :
  emits P (fun a => o = Returned a) (lift o).
Proof.
  intros tr. exists []. simpl. rewrite app_nil_r. repeat split; auto.
Qed.

Lemma emits_processRequest_try (w : World) (data : build_data) :
  emits (pipeline_effect w data) any (processRequest_try w data).
Proof.
  unfold processRequest_try.
  apply emits_bind with (Q1 := any).
  { apply emits_generateCode. intros; exact I. }
  intros code _.
  apply emits_bind with (Q1 := fun name => repo_name w data = Returned name).
  { apply emits_lift_returned. }
  intros name Hname.
  apply emits_bind
    with (Q1 := fun repo => repos_createForAuthenticatedUser w name = Returned repo).
  { apply emits_post.
    - apply emits_createGitHubRepo; simpl; auto.
    - intros tr repo. apply createGitHubRepo_returns. }
  intros repo Hrepo.
  apply emits_bind with (Q1 := any).
  { apply emits_enableGitHubPages. exact I. }
  intros _ _.
  apply emits_bind with (Q1 := any).
  { apply emits_perform. exact I. }
  intros _ _.
  apply emits_bind with (Q1 := any).
  { apply emits_notifyEvaluation; simpl; auto.
    split; [reflexivity |]. now exists name, repo. }
  intros _ _. apply emits_perform. exact I.
Qed.

Lemma emits_processRequest (w : World) (data : build_data) :
  emits (pipeline_effect w data) any (processRequest w data).
Proof.
  unfold processRequest. apply emits_try_catch.
  - apply emits_processRequest_try.
  - intros e. apply emits_perform. exact I.
Qed.

(** The outer [catch] of [processRequest] turns every throw of the [try]
    block into one [console.error]. *)
Lemma processRequest_catches (w : World) (data : build_data) (tr tr' : trace) (e : js_error) :
  processRequest_try w data tr = (Thrown e, tr') ->
  processRequest w data tr =
    (Returned tt, tr' ++ [EConsoleError [AStr "Error processing request:"; AErr e]]).
Proof.
  intros H. unfold processRequest, try_catch. now rewrite H.
Qed.

Lemma processRequest_returns (w : World) (data : build_data) (tr : trace) :
  fst (processRequest w data tr) = Returned tt.
Proof.
  unfold processRequest, try_catch.
  destruct (processRequest_try w data tr) as [[[] | e] tr']; reflexivity.
Qed.

(** A throw of the generation step: nothing but the request to the
    generator has happened, and the pipeline ends with the log entry. *)
Lemma generation_throws (w : World) (data : build_data) (tr tr' : trace) (e : js_error) :
  generateCode w (brief data) (attachments data) (checks data) tr = (Thrown e, tr') ->
  processRequest w data tr =
    (Returned tt, tr' ++ [EConsoleError [AStr "Error processing request:"; AErr e]])
  /\ exists new, tr' = tr ++ new
       /\ Forall (fun x => exists model prompt, x = EChatCompletion model prompt) new.
Proof.
  intros H. split.
  - apply processRequest_catches. unfold processRequest_try, bind. now rewrite H.
  - destruct (emits_generateCode w
                (fun x => exists model prompt, x = EChatCompletion model prompt)
                (brief data) (attachments data) (checks data)) with (tr := tr)
      as [new [E [F _]]]; [eauto |].
    rewrite H in E. simpl in E. eauto.
Qed.

Lemma count_none (p : effect -> bool) (P : effect -> Prop) (l : trace) :
  (forall x, P x -> p x = false) -> Forall P l -> count p l = 0%nat.
Proof.
  intros Hp F. unfold count. induction F as [| x l Hx _ IH]; simpl; [reflexivity |].
  now rewrite (Hp x Hx).
Qed.

Lemma build_prompt_returned (w : World) (brief attachments checks : js_value) (prompt : string) :
  build_prompt w brief attachments checks = Returned prompt ->
  (exists readme, generateReadme w brief checks = Returned readme)
  /\ embed_attachments w attachments = Returned tt.
Proof.
  unfold build_prompt, generateReadme, embed_attachments.
  destruct (ToString w brief) as [text | e]; simpl; [| discriminate].
  destruct (numbered_checks w checks) as [req | e]; simpl; [| discriminate].
  intros H. split; [eauto |].
  destruct (has_attachments w attachments) as [[|] | e]; simpl in *;
    [| reflexivity | discriminate].
  destruct attachments; simpl in H; try discriminate; reflexivity.
Qed.

Lemma bind_extends {A B : Type} (c : M A) (k : A -> M B) (tr : trace) :
  (forall a, emits any any (k a)) ->
  exists more, snd (bind c k tr) = snd (c tr) ++ more.
Proof.
  intros Hk. unfold bind. destruct (c tr) as [[a | e] tr1]; simpl.
  - destruct (Hk a tr1) as [more [E _]]. eauto.
  - exists []. now rewrite app_nil_r.
Qed.

Lemma try_catch_extends {A : Type} (c : M A) (h : js_error -> M A) (tr : trace) :
  (forall e, emits any any (h e)) ->
  exists more, snd (try_catch c h tr) = snd (c tr) ++ more.
Proof.
  intros Hh. unfold try_catch. destruct (c tr) as [[a | e] tr1]; simpl.
  - exists []. now rewrite app_nil_r.
  - destruct (Hh e tr1) as [more [E _]]. eauto.
Qed.

Lemma count_chat_only (p : effect -> bool) (new : trace) :
  (forall model prompt, p (EChatCompletion model prompt) = false) ->
  Forall (fun x => exists model prompt, x = EChatCompletion model prompt) new ->
  count p new = 0%nat.
Proof.
  intros Hp. apply count_none. intros x [model [prompt ->]]. apply Hp.
Qed.

(** The publisher starts by asking who is authenticated. *)
Lemma createGitHubRepo_starts (w : World) (name : string) (files : bundle) (tr : trace) :
  exists rest, snd (createGitHubRepo w name files tr) = tr ++ EGetAuthenticated :: rest.
Proof.
  unfold createGitHubRepo.
  match goal with |- context [bind ?c ?k tr] => destruct (bind_extends c k tr) as [more E] end.
  - intros username. unfold sleep, write_entry. emits_auto; exact I.
  - rewrite E. simpl. exists more. now rewrite <- app_assoc.
Qed.

(** C3 (as amended): when the Content Generator throws, the pipeline
    stops at step 1: the error is logged by the outer catch, the run ends,
    and no step of the publisher has run.  An empty generated content is
    not an error: [generateCode] returns a bundle whose [index.html] is
    empty, and the pipeline goes on to step 2 with it: the location name is
    derived, and when that conversion of [task] and [round] returns, the
    publisher is called; when the conversion throws, the run ends with that
    error logged, which is not an error of the generator. *)
Theorem generation_error_ends_pipeline :
  forall (w : World) (data : build_data) (tr : trace),
    (forall e tr',
        generateCode w (brief data) (attachments data) (checks data) tr = (Thrown e, tr') ->
        processRequest w data tr =
          (Returned tt, tr' ++ [EConsoleError [AStr "Error processing request:"; AErr e]])
        /\ count is_publish (snd (processRequest w data tr)) = count is_publish tr)
    /\ (forall prompt others,
        build_prompt w (brief data) (attachments data) (checks data) = Returned prompt ->
        chat_completions_create w "gpt-4" prompt
          = Returned (mkCompletion (Some EmptyString :: others)) ->
        exists readme,
          generateCode w (brief data) (attachments data) (checks data) tr =
            (Returned [ ("index.html", EmptyString); ("README.md", readme);
                        ("LICENSE", getMITLicense w) ]%string,
             tr ++ [EChatCompletion "gpt-4" prompt])
          /\ (forall name,
                repo_name w data = Returned name ->
                exists rest,
                  snd (processRequest w data tr) =
                    tr ++ [EChatCompletion "gpt-4" prompt; EGetAuthenticated] ++ rest)
          /\ (forall e,
                repo_name w data = Thrown e ->
                processRequest w data tr =
                  (Returned tt,
                   tr ++ [EChatCompletion "gpt-4" prompt;
                          EConsoleError [AStr "Error processing request:"; AErr e]]))).
Proof.
  intros w data tr. split.
  - intros e tr' H. destruct (generation_throws w data tr tr' e H) as [Hrun [new [-> F]]].
    split; [exact Hrun |]. rewrite Hrun. simpl. rewrite !count_app.
    rewrite (count_chat_only is_publish new (fun _ _ => eq_refl) F).
    change (count is_publish [EConsoleError [AStr "Error processing request:"; AErr e]])
      with 0%nat. lia.
  - intros prompt others Hp Hc.
    destruct (build_prompt_returned w _ _ _ _ Hp) as [[readme Hr] Hemb].
    assert (Hgen : generateCode w (brief data) (attachments data) (checks data) tr =
              (Returned [ ("index.html", EmptyString); ("README.md", readme);
                          ("LICENSE", getMITLicense w) ]%string,
               tr ++ [EChatCompletion "gpt-4" prompt])).
    { unfold generateCode, bind, lift, await, ret. rewrite Hp, Hc. simpl.
      rewrite Hemb, Hr. reflexivity. }
    exists readme. split; [exact Hgen | split].
    + intros name Hname.
      destruct (try_catch_extends (processRequest_try w data)
                  (fun error =>
                     perform (EConsoleError [AStr "Error processing request:"; AErr error]))
                  tr) as [m1 E1].
      { intros e. apply emits_perform. exact I. }
      fold (processRequest w data) in E1.
      assert (E2 : exists m2, snd (processRequest_try w data tr) =
                     (tr ++ [EChatCompletion "gpt-4" prompt]) ++ EGetAuthenticated :: m2).
      { unfold processRequest_try. unfold bind at 1. rewrite Hgen.
        unfold bind at 1, lift. rewrite Hname.
        match goal with |- context [bind ?c ?k ?t] => destruct (bind_extends c k t) as [m2 E2] end.
        - intros repo. unfold notifyEvaluation, notify_attempt, axios_post, enableGitHubPages, sleep.
          emits_auto; exact I.
        - destruct (createGitHubRepo_starts w name
                      [ ("index.html", EmptyString); ("README.md", readme);
                        ("LICENSE", getMITLicense w) ]%string
                      (tr ++ [EChatCompletion "gpt-4" prompt])) as [rest Hs].
          rewrite Hs in E2. exists (rest ++ m2). rewrite E2.
          now rewrite <- !app_assoc. }
      destruct E2 as [m2 E2]. exists (m2 ++ m1).
      rewrite E1, E2. rewrite <- !app_assoc. reflexivity.
    + intros e Hname.
      unfold processRequest, try_catch, processRequest_try. unfold bind at 1. rewrite Hgen.
      unfold bind at 1, lift. rewrite Hname. unfold perform.
      now rewrite <- app_assoc.
Qed.

(** C3 at work: the generator is refused with status 429. *)
Lemma generation_error_ends_pipeline_witness :
  let w := with_completion happy_world (Thrown (mkError (Some 429) "Rate limit reached")) in
  processRequest w sample_data [] =
    (Returned tt,
     snd (generateCode w (brief sample_data) (attachments sample_data) (checks sample_data) [])
       ++ [EConsoleError [AStr "Error processing request:";
                          AErr (mkError (Some 429) "Rate limit reached")]])
  /\ count is_publish (snd (processRequest w sample_data [])) = count is_publish [].
Proof.
  cbv zeta.
  apply (proj1 (generation_error_ends_pipeline
                  (with_completion happy_world (Thrown (mkError (Some 429) "Rate limit reached")))
                  sample_data [])).
  reflexivity.
Defined.

(** C3 as stated fails: a generator that answers with an empty content
    does not stop the pipeline; the publisher runs (the authenticated user
    is asked for, the repository is created, three files are written, the
    pages site is enabled) and the notification is sent. *)
Lemma empty_content_is_published :
  let w := with_completion happy_world (Returned (mkCompletion [Some EmptyString])) in
  (exists readme license,
      fst (generateCode w (brief sample_data) (attachments sample_data) (checks sample_data) [])
        = Returned [ ("index.html", EmptyString); ("README.md", readme);
                     ("LICENSE", license) ]%string)
  /\ count is_publish (snd (run (processRequest w sample_data))) = 6%nat
  /\ In (ECreateRepo "t1-round2" true false) (snd (run (processRequest w sample_data)))
  /\ In (EWriteFile (mkWrite "octocat" "t1-round2" "index.html" "Add index.html" EmptyString))
       (snd (run (processRequest w sample_data)))
  /\ ~ (forall (w : World) (data : build_data) (code : bundle) (tr' : trace),
          generateCode w (brief data) (attachments data) (checks data) [] = (Returned code, tr') ->
          lookup "index.html" code = Some EmptyString ->
          count is_publish (snd (run (processRequest w data))) = 0%nat).
Proof.
  cbv zeta. split; [| split; [| split; [| split]]].
  - eexists. eexists. vm_compute. reflexivity.
  - vm_compute. reflexivity.
  - vm_compute. tauto.
  - vm_compute. tauto.
  - intros H.
    specialize (H (with_completion happy_world (Returned (mkCompletion [Some EmptyString])))
                  sample_data _ _ eq_refl eq_refl).
    vm_compute in H. discriminate H.
Qed.

(** C7: the notice is built once, from the request and the repository
    created for it, field by field; every POST of a delivery carries the
    notice and the URL that [notifyEvaluation] was given, so all the POSTs
    of a run carry one and the same notice. *)
Theorem notice_fixed_across_retries :
  forall (w : World) (data : build_data) (tr : trace),
    (forall (n : notice) (url : js_value) (t0 : trace),
        exists new,
          snd (notifyEvaluation w n url t0) = t0 ++ new
          /\ forall url' n' t, In (EPost url' n' t) new -> url' = url /\ n' = n)
    /\ exists new,
         snd (processRequest w data tr) = tr ++ new
         /\ (forall url n t,
               In (EPost url n t) new ->
               url = evaluation_url data
               /\ exists name repo,
                    repo_name w data = Returned name
                    /\ repos_createForAuthenticatedUser w name = Returned repo
                    /\ n = mkNotice (email data) (task data) (round data) (nonce data)
                             (html_url repo) (default_branch repo)
                             (pages_url (owner_login repo) name))
         /\ (forall url1 n1 t1 url2 n2 t2,
               In (EPost url1 n1 t1) new -> In (EPost url2 n2 t2) new -> n1 = n2).
Proof.
  intros w data tr. split.
  - intros n url t0.
    destruct (emits_notifyEvaluation w
                (fun e => match e with EPost u d _ => u = url /\ d = n | _ => True end)
                n url) with (tr := t0) as [new [E [F _]]]; simpl; auto.
    exists new. split; [exact E |].
    intros url' n' t Hin. rewrite Forall_forall in F. exact (F _ Hin).
  - destruct (emits_processRequest w data tr) as [new [E [F _]]].
    rewrite Forall_forall in F.
    assert (H : forall url n t, In (EPost url n t) new ->
              url = evaluation_url data
              /\ exists name repo,
                   repo_name w data = Returned name
                   /\ repos_createForAuthenticatedUser w name = Returned repo
                   /\ n = notice_of data name repo).
    { intros url n t Hin. exact (F _ Hin). }
    exists new. split; [exact E | split; [exact H |]].
    intros url1 n1 t1 url2 n2 t2 H1 H2.
    destruct (H _ _ _ H1) as [_ [m1 [r1 [N1 [R1 ->]]]]].
    destruct (H _ _ _ H2) as [_ [m2 [r2 [N2 [R2 ->]]]]].
    rewrite N1 in N2. inversion N2; subst m2.
    rewrite R1 in R2. now inversion R2.
Qed.

(** C7 at work: three POSTs of one run, one notice. *)
Lemma notice_fixed_across_retries_witness :
  exists new,
    snd (processRequest (with_endpoint happy_world (flaky 2)) sample_data []) = [] ++ new
    /\ count is_post new = 3%nat
    /\ (forall url1 n1 t1 url2 n2 t2,
          In (EPost url1 n1 t1) new -> In (EPost url2 n2 t2) new -> n1 = n2).
Proof.
  destruct (proj2 (notice_fixed_across_retries (with_endpoint happy_world (flaky 2))
                     sample_data [])) as [new [E [_ H]]].
  exists new. split; [exact E | split; [| exact H]].
  simpl in E. rewrite <- E. vm_compute. reflexivity.
Defined.

(** The location name, once derived, is the template over the texts of
    [task] and [round]. *)
Lemma repo_name_returned (w : World) (data : build_data) (name : string) :
  repo_name w data = Returned name ->
  exists t r,
    ToString w (task data) = Returned t
    /\ ToString w (round data) = Returned r
    /\ name = (t ++ "-round" ++ r)%string.
Proof.
  unfold repo_name.
  destruct (ToString w (task data)) as [t | e]; simpl; [| discriminate].
  destruct (ToString w (round data)) as [r | e]; simpl; [| discriminate].
  intros H. inversion H. now exists t, r.
Qed.

(** When the location name cannot be derived, the run consists of the
    request to the generator, if any, and of the error log. *)
Lemma emits_processRequest_unnamed (w : World) (data : build_data) (e : js_error) :
  repo_name w data = Thrown e ->
  emits (fun x => (exists model prompt, x = EChatCompletion model prompt)
                  \/ exists args, x = EConsoleError args)
    any (processRequest w data).
Proof.
  intros He. unfold processRequest. apply emits_try_catch.
  - unfold processRequest_try. apply emits_bind with (Q1 := any).
    { apply emits_generateCode. intros; left; eauto. }
    intros code _.
    apply emits_bind with (Q1 := fun name => repo_name w data = Returned name).
    { apply emits_lift_returned. }
    intros name Hname. congruence.
  - intros err. apply emits_perform. right; eauto.
Qed.

(** The text of an array: the texts of its elements, empty for
    [undefined] and [null], joined by commas. *)
Lemma ToString_array (w : World) (l : list js_value) (texts : list string) :
  Forall2 (fun x s => match x with
                      | VUndefined | VNull => s = EmptyString
                      | _ => ToString w x = Returned s
                      end) l texts ->
  ToString w (VArr l) = Returned (join "," texts).
Proof.
  intros F. cbn [ToString].
  match goal with
  | |- outcome_bind (?f l) _ = _ => assert (H : f l = Returned texts)
  end.
  { induction F as [| x s l texts Hx _ IH]; [reflexivity |].
    rewrite IH.
    destruct x; try (rewrite Hx; reflexivity); subst s; reflexivity. }
  now rewrite H.
Qed.

(** C8: the location name is the template [{task}-round{round}] over the
    texts of [task] and [round], converted in this order: a string is its
    own text, a safe integer its decimal digits, [undefined], [null] and the
    booleans their names, an array its elements joined by commas, an object
    [[object Object]]; when a conversion throws (an object with an own
    [toString]), no name is derived and nothing is published or notified.
    Every repository of a run is created under that name, and the public
    URL of every notice is [https://{owner}.github.io/{repoName}/], put
    together from the login of the owner of the created repository and that
    name; for task t1 and round 2 the name is [t1-round2]. *)
Theorem location_name_and_url_derived :
  forall (w : World) (data : build_data) (tr : trace),
    (forall t r,
        ToString w (task data) = Returned t -> ToString w (round data) = Returned r ->
        repo_name w data = Returned (t ++ "-round" ++ r)%string)
    /\ (forall e, ToString w (task data) = Thrown e -> repo_name w data = Thrown e)
    /\ (forall t e,
          ToString w (task data) = Returned t -> ToString w (round data) = Thrown e ->
          repo_name w data = Thrown e)
    /\ ((forall s, ToString w (VStr s) = Returned s)
        /\ (forall z, Z.abs z <= 9007199254740991 ->
              ToString w (VNum z) = Returned (NilEmpty.string_of_int (Z.to_int z)))
        /\ (forall z, 9007199254740991 < Z.abs z ->
              ToString w (VNum z) = Returned (Number_toString w z))
        /\ ToString w VUndefined = Returned "undefined"%string
        /\ ToString w VNull = Returned "null"%string
        /\ ToString w (VBool true) = Returned "true"%string
        /\ ToString w (VBool false) = Returned "false"%string
        /\ (forall l texts,
              Forall2 (fun x s => match x with
                                  | VUndefined | VNull => s = EmptyString
                                  | _ => ToString w x = Returned s
                                  end) l texts ->
              ToString w (VArr l) = Returned (join "," texts))
        /\ (forall props, lookup "toString" props = None ->
              ToString w (VObj props) = Returned "[object Object]"%string)
        /\ (forall props v, lookup "toString" props = Some v ->
              ToString w (VObj props)
                = Thrown (TypeError "Cannot convert object to primitive value")))
    /\ repo_name w sample_data = Returned "t1-round2"%string
    /\ exists new,
         snd (processRequest w data tr) = tr ++ new
         /\ (forall name auto_init private,
               In (ECreateRepo name auto_init private) new ->
               exists t r,
                 ToString w (task data) = Returned t
                 /\ ToString w (round data) = Returned r
                 /\ name = (t ++ "-round" ++ r)%string)
         /\ (forall url n ms,
               In (EPost url n ms) new ->
               exists t r repo,
                 ToString w (task data) = Returned t
                 /\ ToString w (round data) = Returned r
                 /\ repos_createForAuthenticatedUser w (t ++ "-round" ++ r) = Returned repo
                 /\ n_pages_url n =
                      ("https://" ++ owner_login repo ++ ".github.io/"
                         ++ (t ++ "-round" ++ r) ++ "/")%string)
         /\ (forall e,
               repo_name w data = Thrown e ->
               count is_publish new = 0%nat /\ count is_post new = 0%nat).
Proof.
  intros w data tr.
  split; [| split; [| split; [| split; [| split]]]].
  - intros t r Ht Hr. unfold repo_name. now rewrite Ht, Hr.
  - intros e He. unfold repo_name. now rewrite He.
  - intros t e Ht He. unfold repo_name. now rewrite Ht, He.
  - repeat split; try reflexivity.
    + intros z Hz. cbn [ToString]. unfold number_text, MAX_SAFE_INTEGER.
      apply Z.leb_le in Hz. now rewrite Hz.
    + intros z Hz. cbn [ToString]. unfold number_text, MAX_SAFE_INTEGER.
      apply Z.leb_gt in Hz. now rewrite Hz.
    + apply ToString_array.
    + intros props H. cbn [ToString]. now rewrite H.
    + intros props v H. cbn [ToString]. now rewrite H.
  - reflexivity.
  - destruct (emits_processRequest w data tr) as [new [E [F _]]].
    rewrite Forall_forall in F.
    exists new. split; [exact E | split; [| split]].
    + intros name ai pr Hin. apply repo_name_returned. exact (F _ Hin).
    + intros url n ms Hin. destruct (F _ Hin) as [_ [name [repo [N [R ->]]]]].
      destruct (repo_name_returned w data name N) as [t [r [Ht [Hr ->]]]].
      exists t, r, repo. repeat split; assumption || reflexivity.
    + intros e He.
      destruct (emits_processRequest_unnamed w data e He tr) as [new' [E' [F' _]]].
      rewrite E in E'. apply app_inv_head in E'. subst new'.
      split; apply (count_none _ _ new) with (2 := F');
        intros x [[model [prompt ->]] | [args ->]]; reflexivity.
Qed.

(** C8 at work: task t1, round 2, owner octocat; and a task whose
    conversion throws. *)
Lemma location_name_and_url_derived_witness :
  repo_name happy_world sample_data = Returned "t1-round2"%string
  /\ ToString happy_world (VNum (-7)) = Returned "-7"%string
  /\ ToString happy_world (VArr [VNum 1; VNull; VStr "b"]) = Returned "1,,b"%string
  /\ In (ECreateRepo "t1-round2" true false) (snd (run (processRequest happy_world sample_data)))
  /\ In (EPost sample_url sample_notice 10000) (snd (run (processRequest happy_world sample_data)))
  /\ n_pages_url sample_notice = "https://octocat.github.io/t1-round2/"%string
  /\ (let data := mkData (VStr "a@example.com") (VObj [("toString", VStr "x")]) (VNum 2)
                    (VStr "n-1") (VStr "A counter") (VArr [VStr "a"; VStr "b"])
                    sample_url VUndefined in
      repo_name happy_world data = Thrown (TypeError "Cannot convert object to primitive value")
      /\ count is_publish (snd (run (processRequest happy_world data))) = 0%nat).
Proof.
  split;
    [exact (proj1 (proj2 (proj2 (proj2 (proj2
              (location_name_and_url_derived happy_world sample_data [])))))) |].
  vm_compute. tauto.
Defined.

(** ** The publisher *)

Section Writes.

Variable w : World.
Variables username repoName : string.

Lemma write_entry_run (entry : string * string) (tr : trace) :
  write_entry w username repoName entry tt tr =
    match repos_createOrUpdateFileContents w (count is_write tr)
            (write_of username repoName entry) with
    | Returned _ => (Returned (Continue tt), tr ++ [write_effect username repoName entry])
    | Thrown e => (Thrown e, tr ++ [write_effect username repoName entry])
    end.
Proof.
  destruct entry as [filename content]. unfold write_entry, bind, await, ret, write_of. simpl.
  now destruct (repos_createOrUpdateFileContents w (count is_write tr) _).
Qed.

Lemma count_write_snoc (entry : string * string) (tr : trace) :
  count is_write (tr ++ [write_effect username repoName entry]) = S (count is_write tr).
Proof.
  rewrite count_app. change (count is_write [write_effect username repoName entry]) with 1%nat. lia.
Qed.

(** Every write answers: the loop writes every entry, in order. *)
Lemma writes_all (entries : list (string * string)) :
  forall tr,
    (forall j, (j < List.length entries)%nat ->
       repos_createOrUpdateFileContents w (count is_write tr + j)
         (write_of username repoName (nth j entries no_entry)) = Returned tt) ->
    for_of entries (write_entry w username repoName) tt tr =
      (Returned (Continue tt), tr ++ map (write_effect username repoName) entries).
Proof.
  induction entries as [| x rest IH]; intros tr H.
  - simpl. unfold ret. now rewrite app_nil_r.
  - cbn [for_of]. unfold bind. rewrite write_entry_run.
    specialize (H 0%nat ltac:(simpl; lia)) as H0. rewrite Nat.add_0_r in H0. simpl in H0.
    rewrite H0. rewrite IH.
    + simpl. now rewrite <- app_assoc.
    + intros j Hj. rewrite count_write_snoc.
      specialize (H (S j) ltac:(simpl; lia)). simpl in H.
      now replace (S (count is_write tr) + j)%nat with (count is_write tr + S j)%nat by lia.
Qed.

(** The write of entry [k] throws and those before it answer: the loop
    stops there, the entries after [k] are never written. *)
Lemma writes_until_failure (entries : list (string * string)) :
  forall k tr e,
    (k < List.length entries)%nat ->
    (forall j, (j < k)%nat ->
       repos_createOrUpdateFileContents w (count is_write tr + j)
         (write_of username repoName (nth j entries no_entry)) = Returned tt) ->
    repos_createOrUpdateFileContents w (count is_write tr + k)
      (write_of username repoName (nth k entries no_entry)) = Thrown e ->
    for_of entries (write_entry w username repoName) tt tr =
      (Thrown e, tr ++ map (write_effect username repoName) (firstn (S k) entries)).
Proof.
  induction entries as [| x rest IH]; intros k tr e Hk Hok Hfail; [simpl in Hk; lia |].
  cbn [for_of]. unfold bind. rewrite write_entry_run. destruct k as [| k].
  - rewrite Nat.add_0_r in Hfail. simpl in Hfail. rewrite Hfail. reflexivity.
  - specialize (Hok 0%nat ltac:(lia)) as H0. rewrite Nat.add_0_r in H0. simpl in H0.
    rewrite H0. rewrite (IH k _ e).
    + cbn [firstn map]. now rewrite <- app_assoc.
    + simpl in Hk. lia.
    + intros j Hj. rewrite count_write_snoc.
      specialize (Hok (S j) ltac:(lia)). simpl in Hok.
      now replace (S (count is_write tr) + j)%nat with (count is_write tr + S j)%nat by lia.
    + rewrite count_write_snoc. simpl in Hfail.
      now replace (S (count is_write tr) + k)%nat with (count is_write tr + S k)%nat by lia.
Qed.

End Writes.

Lemma index_entries_none {A : Type} (obj : list (string * A)) :
  (forall name, In name (map fst obj) -> is_index name = false) ->
  index_entries obj = [] /\ filter (fun kv => negb (is_index (fst kv))) obj = obj.
Proof.
  induction obj as [| [k v] rest IH]; intros H; [now split |].
  assert (Hk : is_index k = false) by (apply H; now left).
  destruct IH as [IH1 IH2]; [intros name Hn; apply H; now right |].
  simpl. rewrite Hk. simpl. rewrite IH2. split; [| reflexivity].
  unfold is_index in Hk. destruct (array_index k); [discriminate | exact IH1].
Qed.

(** Without array-index keys, [Object.entries] is the creation order. *)
Lemma Object_entries_insertion_order {A : Type} (obj : list (string * A)) :
  (forall name, In name (map fst obj) -> is_index name = false) ->
  Object_entries obj = obj.
Proof.
  intros H. destruct (index_entries_none obj H) as [E1 E2].
  unfold Object_entries. now rewrite E1, E2.
Qed.

(** The bundle of the generator always has the same three names. *)
Lemma generateCode_bundle (w : World) (brief attachments checks : js_value)
    (t0 t1 : trace) (files : bundle) :
  generateCode w brief attachments checks t0 = (Returned files, t1) ->
  exists html readme,
    files = [ ("index.html", html); ("README.md", readme); ("LICENSE", getMITLicense w) ]%string.
Proof.
  unfold generateCode, bind, lift, await, ret.
  destruct (build_prompt w brief attachments checks) as [prompt | e]; [| discriminate].
  destruct (chat_completions_create w "gpt-4" prompt) as [response | e]; [| discriminate].
  destruct (first_content response) as [content | e]; [| discriminate].
  destruct (embed_attachments w attachments) as [[] | e]; [| discriminate].
  destruct (generateReadme w brief checks) as [readme | e]; [| discriminate].
  intros H. inversion H. eauto.
Qed.

(** C5 (as amended): the publisher writes the files one at a time, in
    the order of [Object.entries] of the bundle: the file names that are
    array indices first, in ascending numeric order, then the other names
    in insertion order, which is the insertion order of the whole bundle
    when no file name is an array index, as in every bundle the generator
    returns.  Each write carries the commit message [Add <file name>].
    When the write of entry k throws, the entries after k are not written,
    nothing is retried, no earlier file is touched again, and the pipeline
    ends with the log entry of its outer catch. *)
Theorem files_written_in_entries_order :
  forall (w : World) (repoName : string) (files : bundle) (tr : trace)
         (username : string) (repo : repo_data),
    users_getAuthenticated w = Returned username ->
    repos_createForAuthenticatedUser w repoName = Returned repo ->
    let entries := Object_entries files in
    let file entry :=
      mkWrite username repoName (fst entry) ("Add " ++ fst entry)%string (base64 (snd entry)) in
    let start := tr ++ [EGetAuthenticated; ECreateRepo repoName true false; ESetTimeout 3000] in
    let answer j :=
      repos_createOrUpdateFileContents w (count is_write tr + j) (file (nth j entries no_entry)) in
    ((forall j, (j < List.length entries)%nat -> answer j = Returned tt) ->
     createGitHubRepo w repoName files tr =
       (Returned repo, start ++ map (fun entry => EWriteFile (file entry)) entries))
    /\ (forall k e,
          (k < List.length entries)%nat ->
          (forall j, (j < k)%nat -> answer j = Returned tt) ->
          answer k = Thrown e ->
          createGitHubRepo w repoName files tr =
            (Thrown e, start ++ map (fun entry => EWriteFile (file entry)) (firstn (S k) entries))
          /\ forall data tr0,
               generateCode w (brief data) (attachments data) (checks data) tr0
                 = (Returned files, tr) ->
               repo_name w data = Returned repoName ->
               processRequest w data tr0 =
                 (Returned tt,
                  (start ++ map (fun entry => EWriteFile (file entry)) (firstn (S k) entries))
                    ++ [EConsoleError [AStr "Error processing request:"; AErr e]]))
    /\ ((forall name, In name (map fst files) -> is_index name = false) -> entries = files)
    /\ (forall brief attachments checks t0 t1,
          generateCode w brief attachments checks t0 = (Returned files, t1) -> entries = files).
Proof.
  intros w repoName files tr username repo Hu Hr entries file start answer.
  assert (Hstart : count is_write start = count is_write tr).
  { unfold start. rewrite count_app.
    change (count is_write [EGetAuthenticated; ECreateRepo repoName true false; ESetTimeout 3000])
      with 0%nat. lia. }
  assert (Hrun : forall r, for_of entries (write_entry w username repoName) tt start = r ->
            createGitHubRepo w repoName files tr =
              match r with
              | (Returned _, tr') => (Returned repo, tr')
              | (Thrown e, tr') => (Thrown e, tr')
              end).
  { intros r <-. unfold createGitHubRepo, bind, await, sleep, perform, ret.
    rewrite Hu, Hr. fold entries. unfold start. rewrite <- !app_assoc. simpl.
    now destruct (for_of entries _ tt _) as [[f | e] tr']. }
  split; [| split; [| split]].
  - intros Hall. rewrite (Hrun _ (writes_all w username repoName entries start
      ltac:(intros j Hj; rewrite Hstart; now apply Hall))). reflexivity.
  - intros k e Hk Hok Hfail.
    assert (Hrepo : createGitHubRepo w repoName files tr =
              (Thrown e,
               start ++ map (fun entry => EWriteFile (file entry)) (firstn (S k) entries))).
    { rewrite (Hrun _ (writes_until_failure w username repoName entries k start e Hk
        ltac:(intros j Hj; rewrite Hstart; now apply Hok)
        ltac:(rewrite Hstart; exact Hfail))). reflexivity. }
    split; [exact Hrepo |].
    intros data tr0 Hgen Hname. apply processRequest_catches.
    unfold processRequest_try, bind, lift. rewrite Hgen, Hname, Hrepo. reflexivity.
  - apply Object_entries_insertion_order.
  - intros brief attachments checks t0 t1 Hgen.
    destruct (generateCode_bundle w brief attachments checks t0 t1 files Hgen)
      as [html [readme ->]].
    apply Object_entries_insertion_order.
    intros name [<- | [<- | [<- | []]]]; reflexivity.
Qed.

(** C5 at work: the second of three writes is refused with status 422;
    the third file is never written. *)
Lemma files_written_in_entries_order_witness :
  createGitHubRepo failing_second_write "t1-round2" sample_bundle [] =
    (Thrown (mkError (Some 422) "Unprocessable"),
     [ EGetAuthenticated; ECreateRepo "t1-round2" true false; ESetTimeout 3000;
       EWriteFile (mkWrite "octocat" "t1-round2" "index.html" "Add index.html"
                     "PGgxPmhpPC9oMT4=");
       EWriteFile (mkWrite "octocat" "t1-round2" "README.md" "Add README.md" "IyBy") ])
  /\ Object_entries sample_bundle = sample_bundle.
Proof.
  destruct (files_written_in_entries_order failing_second_write "t1-round2" sample_bundle []
              "octocat"
              (mkRepo "octocat" "https://github.com/octocat/t1-round2" "main")
              eq_refl eq_refl) as [_ [H [Horder _]]].
  split.
  - destruct (H 1%nat (mkError (Some 422) "Unprocessable")) as [H1 _].
    + simpl. lia.
    + intros [| j] Hj; [reflexivity | lia].
    + reflexivity.
    + exact H1.
  - apply Horder. intros name [<- | [<- | [<- | []]]]; reflexivity.
Defined.

(** C5 as stated fails: in a bundle whose second file has a name that is
    an array index, that file is written first, before the file inserted
    first. *)
Lemma numeric_file_name_written_first :
  let files := [ ("index.html", "<h1>hi</h1>"); ("2048", "game") ]%string in
  map fst files = ["index.html"; "2048"]%string
  /\ map fw_path (written (snd (run (createGitHubRepo happy_world "t1-round2" files))))
       = ["2048"; "index.html"]%string
  /\ ~ (forall (w : World) (repoName : string) (files : bundle),
          exists later,
            map fst files =
              map fw_path (written (snd (run (createGitHubRepo w repoName files)))) ++ later).
Proof.
  cbv zeta. split; [reflexivity | split; [reflexivity |]].
  intros H.
  destruct (H happy_world "t1-round2"%string
              [ ("index.html", "<h1>hi</h1>"); ("2048", "game") ]%string) as [later E].
  vm_compute in E. discriminate E.
Qed.

(** ** Enabling the pages site *)

Lemma emits_notify_attempt (w : World) (n : notice) (url : js_value) (i : nat) (delay : Z) :
  emits any any (notify_attempt w n url i delay).
Proof. unfold notify_attempt, axios_post, sleep. emits_auto; exact I. Qed.

(** A delivery starts with a POST of the notice. *)
Lemma notifyEvaluation_starts (w : World) (n : notice) (url : js_value) (tr : trace) :
  exists rest, snd (notifyEvaluation w n url tr) = tr ++ EPost url n 10000 :: rest.
Proof.
  unfold notifyEvaluation. cbv zeta.
  destruct (bind_extends (for_of (seq 0 maxRetries) (notify_attempt w n url) 1000)
              (fun r => match r with
                        | Break tt => ret tt
                        | Continue _ => throw (Error "Failed to notify evaluation API after retries")
                        end) tr) as [m1 E1].
  { intros [s | []]; emits_auto; exact I. }
  rewrite E1. change (seq 0 maxRetries) with (0%nat :: seq 1 4). cbn [for_of].
  match goal with |- context [snd (bind ?c ?k tr)] => destruct (bind_extends c k tr) as [m2 E2] end.
  { intros [s | r]; [apply emits_for_of; intros; apply emits_notify_attempt | emits_auto; exact I]. }
  rewrite E2. unfold notify_attempt at 1.
  match goal with |- context [snd (try_catch ?c ?h tr)] =>
    destruct (try_catch_extends c h tr) as [m3 E3] end.
  { intros e. unfold sleep. emits_auto; exact I. }
  rewrite E3.
  match goal with |- context [snd (bind ?c ?k tr)] => destruct (bind_extends c k tr) as [m4 E4] end.
  { intros resp. emits_auto; exact I. }
  rewrite E4. simpl. exists (m4 ++ m3 ++ m2 ++ m1). now rewrite <- !app_assoc.
Qed.

(** C6: when enabling the pages site is refused with status 409 (the site
    exists already), [enableGitHubPages] returns normally and the pipeline
    goes on to the settling wait and to the notification; any other error
    of that call is thrown again, and the pipeline ends there with the log
    entry of its outer catch: no wait, no notification. *)
Theorem pages_conflict_is_success :
  forall (w : World) (owner repo : string) (tr : trace) (e : js_error),
    repos_createPagesSite w owner repo = Thrown e ->
    let enable := ECreatePagesSite owner repo "main" "/" in
    (err_status e = Some 409 ->
       enableGitHubPages w owner repo tr = (Returned tt, tr ++ [enable]))
    /\ (err_status e <> Some 409 ->
       enableGitHubPages w owner repo tr = (Thrown e, tr ++ [enable]))
    /\ forall data tr0 code tr1 created,
         generateCode w (brief data) (attachments data) (checks data) tr0 = (Returned code, tr1) ->
         repo_name w data = Returned repo ->
         createGitHubRepo w repo code tr1 = (Returned created, tr) ->
         owner_login created = owner ->
         (err_status e = Some 409 ->
            exists rest,
              snd (processRequest w data tr0) =
                tr ++ [enable; ESetTimeout 30000;
                       EPost (evaluation_url data) (notice_of data repo created) 10000] ++ rest)
         /\ (err_status e <> Some 409 ->
            processRequest w data tr0 =
              (Returned tt,
               tr ++ [enable; EConsoleError [AStr "Error processing request:"; AErr e]])).
Proof.
  intros w owner repo tr e He enable.
  assert (H409 : err_status e = Some 409 ->
            enableGitHubPages w owner repo tr = (Returned tt, tr ++ [enable])).
  { intros Hs. unfold enableGitHubPages, try_catch, await. rewrite He, Hs. reflexivity. }
  assert (Hother : err_status e <> Some 409 ->
            enableGitHubPages w owner repo tr = (Thrown e, tr ++ [enable])).
  { intros Hs. unfold enableGitHubPages, try_catch, await. rewrite He.
    destruct (err_status e) as [z |] eqn:Ez; [| reflexivity].
    destruct (Z.eq_dec z 409) as [-> | Hz]; [congruence |].
    destruct z as [| p | p]; try reflexivity.
    unfold throw. repeat (destruct p as [p | p |]; try reflexivity). congruence. }
  split; [exact H409 | split; [exact Hother |]].
  intros data tr0 code tr1 created Hgen Hn Hrepo Ho. split.
  - intros Hs.
    destruct (try_catch_extends (processRequest_try w data)
                (fun error => perform (EConsoleError [AStr "Error processing request:"; AErr error]))
                tr0) as [m1 E1].
    { intros x. apply emits_perform. exact I. }
    fold (processRequest w data) in E1. rewrite E1.
    unfold processRequest_try. unfold bind at 1. rewrite Hgen.
    unfold bind at 1, lift. rewrite Hn.
    unfold bind at 1. rewrite Hrepo. rewrite Ho.
    unfold bind at 1. rewrite (H409 Hs).
    unfold bind at 1. unfold sleep at 1, perform at 1.
    match goal with |- context [snd (bind ?c ?k ?t)] => destruct (bind_extends c k t) as [m2 E2] end.
    { intros x. apply emits_perform. exact I. }
    rewrite E2.
    destruct (notifyEvaluation_starts w
                (mkNotice (email data) (task data) (round data) (nonce data)
                   (html_url created) (default_branch created) (pages_url owner repo))
                (evaluation_url data) ((tr ++ [enable]) ++ [ESetTimeout 30000])) as [m3 E3].
    rewrite E3. exists (m3 ++ m2 ++ m1).
    unfold notice_of. rewrite Ho. rewrite <- !app_assoc. reflexivity.
  - intros Hs. rewrite (processRequest_catches w data tr0 (tr ++ [enable]) e).
    + now rewrite <- app_assoc.
    + unfold processRequest_try. unfold bind at 1. rewrite Hgen.
      unfold bind at 1, lift. rewrite Hn.
      unfold bind at 1. rewrite Hrepo. rewrite Ho.
      unfold bind at 1. rewrite (Hother Hs). reflexivity.
Qed.

(** C6 at work: the pages site exists already (409), and the notification
    is sent all the same. *)
Lemma pages_conflict_is_success_witness :
  let w := with_pages happy_world (Thrown (mkError (Some 409) "GitHub Pages is already enabled.")) in
  enableGitHubPages w "octocat" "t1-round2" [] =
    (Returned tt, [ECreatePagesSite "octocat" "t1-round2" "main" "/"])
  /\ count is_post (snd (run (processRequest w sample_data))) = 1%nat.
Proof.
  cbv zeta. split.
  - apply (proj1 (pages_conflict_is_success
                    (with_pages happy_world
                       (Thrown (mkError (Some 409) "GitHub Pages is already enabled.")))
                    "octocat" "t1-round2" []
                    (mkError (Some 409) "GitHub Pages is already enabled.") eq_refl)).
    reflexivity.
  - vm_compute. reflexivity.
Defined.

(** ** The handler *)

Lemma build_handler_run (w : World) (body secret : js_value) :
  destructure body "secret" = Returned secret ->
  run (build_handler w body) =
    if strict_neq_env secret (SECRET_KEY w)
    then (Returned tt, [forbidden])
    else (Returned tt, snd (processRequest w (data_of body) [acknowledgment])).
Proof.
  intros H. unfold run, build_handler, try_catch, bind at 1.
  destruct body; cbn -[lookup] in H; try discriminate; inversion H; subst secret;
    unfold bind, lift, destructure, get_prop; cbn -[strict_neq_env processRequest lookup];
    match goal with |- context [strict_neq_env ?s ?k] => destruct (strict_neq_env s k) end;
    reflexivity.
Qed.

(** The pipeline never answers the HTTP request. *)
Lemma pipeline_never_responds (w : World) (data : build_data) (tr : trace) :
  exists new, snd (processRequest w data tr) = tr ++ new /\ count is_respond new = 0%nat.
Proof.
  destruct (emits_processRequest w data tr) as [new [E [F _]]].
  exists new. split; [exact E |].
  apply (count_none is_respond (pipeline_effect w data)); [| exact F].
  intros [] Hx; simpl in *; tauto.
Qed.

Lemma handler_authorized (w : World) (body secret : js_value) :
  destructure body "secret" = Returned secret ->
  strict_neq_env secret (SECRET_KEY w) = false ->
  exists pipeline,
    run (build_handler w body) = (Returned tt, acknowledgment :: pipeline)
    /\ snd (processRequest w (data_of body) [acknowledgment]) = acknowledgment :: pipeline
    /\ count is_respond pipeline = 0%nat.
Proof.
  intros Hs Heq. rewrite (build_handler_run w body secret Hs), Heq.
  destruct (pipeline_never_responds w (data_of body) [acknowledgment]) as [new [E C]].
  exists new. rewrite E. auto.
Qed.

Lemma strict_neq_env_false (secret : js_value) (configured : option string) :
  strict_neq_env secret configured = false <->
  (secret = VUndefined /\ configured = None)
  \/ (exists s, secret = VStr s /\ configured = Some s).
Proof.
  split.
  - destruct secret, configured; simpl; try discriminate; intros H.
    + now left.
    + right. apply negb_false_iff, String.eqb_eq in H. subst. eauto.
  - intros [[-> ->] | [s [-> ->]]]; simpl; [reflexivity |].
    now rewrite String.eqb_refl.
Qed.

(** C9: a request whose secret is not strictly equal to the configured
    value gets the 403 response and nothing else happens: no stage of the
    pipeline is triggered.  An authorized request gets the 200 response
    first, and every effect of the pipeline comes after it.  The secrets
    that are accepted are exactly the configured string, or no secret at
    all when none is configured. *)
Theorem mismatched_secret_forbidden :
  forall (w : World) (body secret : js_value),
    destructure body "secret" = Returned secret ->
    (strict_neq_env secret (SECRET_KEY w) = true ->
       run (build_handler w body) = (Returned tt, [ERespond 403 [("error", "Invalid secret")%string]]))
    /\ (strict_neq_env secret (SECRET_KEY w) = false ->
       exists pipeline,
         run (build_handler w body) =
           (Returned tt,
            ERespond 200 [("message", "Request received, processing...")%string] :: pipeline)
         /\ snd (processRequest w (data_of body)
                   [ERespond 200 [("message", "Request received, processing...")%string]])
              = ERespond 200 [("message", "Request received, processing...")%string] :: pipeline
         /\ count is_respond pipeline = 0%nat)
    /\ (strict_neq_env secret (SECRET_KEY w) = false <->
        (secret = VUndefined /\ SECRET_KEY w = None)
        \/ (exists s, secret = VStr s /\ SECRET_KEY w = Some s)).
Proof.
  intros w body secret Hs. split; [| split].
  - intros Hne. now rewrite (build_handler_run w body secret Hs), Hne.
  - intros Heq. exact (handler_authorized w body secret Hs Heq).
  - apply strict_neq_env_false.
Qed.

(** C9 at work: a wrong secret. *)
Lemma mismatched_secret_forbidden_witness :
  run (build_handler happy_world
         (VObj [("secret", VStr "guess"); ("task", VStr "t1"); ("round", VNum 2)]%string))
    = (Returned tt, [ERespond 403 [("error", "Invalid secret")%string]]).
Proof.
  apply (proj1 (mismatched_secret_forbidden happy_world
                  (VObj [("secret", VStr "guess"); ("task", VStr "t1"); ("round", VNum 2)]%string)
                  (VStr "guess") eq_refl)).
  reflexivity.
Defined.

(** C10: the check is the strict inequality [secret !== SECRET_KEY] and
    nothing more, so when no secret is configured, a request with no
    [secret] property is authorized: it gets the 200 response, not the 403
    one, and the whole pipeline runs on it. *)
Theorem unset_secret_accepts_missing_secret :
  forall (w : World) (body : js_value),
    SECRET_KEY w = None ->
    destructure body "secret" = Returned VUndefined ->
    strict_neq_env VUndefined (SECRET_KEY w) = false
    /\ run (build_handler w body) =
         (Returned tt,
          snd (processRequest w (data_of body)
                 [ERespond 200 [("message", "Request received, processing...")%string]]))
    /\ exists pipeline,
         snd (run (build_handler w body)) =
           ERespond 200 [("message", "Request received, processing...")%string] :: pipeline
         /\ count is_respond pipeline = 0%nat.
Proof.
  intros w body Hkey Hs.
  assert (Heq : strict_neq_env VUndefined (SECRET_KEY w) = false) by now rewrite Hkey.
  split; [exact Heq | split].
  - now rewrite (build_handler_run w body VUndefined Hs), Heq.
  - destruct (handler_authorized w body VUndefined Hs Heq) as [pipeline [E [_ C]]].
    exists pipeline. now rewrite E.
Qed.

(** C10 at work: no configured secret, no secret in the request. *)
Lemma unset_secret_accepts_missing_secret_witness :
  let w := with_secret happy_world None in
  strict_neq_env VUndefined (SECRET_KEY w) = false
  /\ run (build_handler w body_without_secret) =
       (Returned tt,
        snd (processRequest w (data_of body_without_secret)
               [ERespond 200 [("message", "Request received, processing...")%string]]))
  /\ exists pipeline,
       snd (run (build_handler w body_without_secret)) =
         ERespond 200 [("message", "Request received, processing...")%string] :: pipeline
       /\ count is_respond pipeline = 0%nat.
Proof.
  exact (unset_secret_accepts_missing_secret (with_secret happy_world None)
           body_without_secret eq_refl eq_refl).
Defined.

(** C4: when the generation step throws, the run of the pipeline makes no
    call of the publisher and sends no notification; it ends with the log
    entry.  Whatever is thrown inside the [try] block of the pipeline is
    caught by its outer [catch] and logged: [processRequest] itself never
    throws, it never answers the HTTP request, and the caller of an
    authorized request has received the 200 response, and only that one,
    however the pipeline ends. *)
Theorem pipeline_errors_logged_only :
  forall (w : World) (data : build_data) (tr : trace),
    fst (processRequest w data tr) = Returned tt
    /\ (forall e tr',
          processRequest_try w data tr = (Thrown e, tr') ->
          processRequest w data tr =
            (Returned tt, tr' ++ [EConsoleError [AStr "Error processing request:"; AErr e]]))
    /\ (forall e tr',
          generateCode w (brief data) (attachments data) (checks data) tr = (Thrown e, tr') ->
          exists before,
            snd (processRequest w data tr) =
              tr ++ before ++ [EConsoleError [AStr "Error processing request:"; AErr e]]
            /\ count is_publish (snd (processRequest w data tr)) = count is_publish tr
            /\ count is_post (snd (processRequest w data tr)) = count is_post tr)
    /\ (exists new,
          snd (processRequest w data tr) = tr ++ new /\ count is_respond new = 0%nat)
    /\ (forall body secret,
          destructure body "secret" = Returned secret ->
          strict_neq_env secret (SECRET_KEY w) = false ->
          exists pipeline,
            run (build_handler w body) =
              (Returned tt,
               ERespond 200 [("message", "Request received, processing...")%string] :: pipeline)
            /\ count is_respond pipeline = 0%nat).
Proof.
  intros w data tr. split; [| split; [| split; [| split]]].
  - apply processRequest_returns.
  - intros e tr'. apply processRequest_catches.
  - intros e tr' H. destruct (generation_throws w data tr tr' e H) as [Hrun [new [-> F]]].
    exists new. rewrite Hrun. simpl. rewrite <- app_assoc. split; [reflexivity |].
    rewrite !count_app.
    rewrite (count_chat_only is_publish new (fun _ _ => eq_refl) F).
    rewrite (count_chat_only is_post new (fun _ _ => eq_refl) F).
    change (count is_publish [EConsoleError [AStr "Error processing request:"; AErr e]])
      with 0%nat.
    change (count is_post [EConsoleError [AStr "Error processing request:"; AErr e]])
      with 0%nat.
    split; lia.
  - apply pipeline_never_responds.
  - intros body secret Hs Heq.
    destruct (handler_authorized w body secret Hs Heq) as [pipeline [E [_ C]]].
    eauto.
Qed.

(** C4 at work: the generator fails with status 500; the caller has its
    200 response, the error is logged, nothing else happens. *)
Lemma pipeline_errors_logged_only_witness :
  let w := with_completion happy_world (Thrown (mkError (Some 500) "upstream")) in
  run (build_handler w sample_body) =
    (Returned tt,
     [ ERespond 200 [("message", "Request received, processing...")%string];
       EChatCompletion "gpt-4"
         (match build_prompt w (VStr "A counter") VUndefined (VArr [VStr "a"; VStr "b"]) with
          | Returned prompt => prompt
          | Thrown _ => EmptyString
          end);
       EConsoleError [AStr "Error processing request:";
                      AErr (mkError (Some 500) "upstream")] ])
  /\ fst (processRequest w sample_data []) = Returned tt.
Proof.
  cbv zeta. split.
  - vm_compute. reflexivity.
  - exact (proj1 (pipeline_errors_logged_only
                    (with_completion happy_world (Thrown (mkError (Some 500) "upstream")))
                    sample_data [])).
Defined.

(** ** The handler without a body, and the scenario from end to end *)

(** A request whose body is [undefined] makes the destructuring throw
    before anything is sent: the error is logged and the response is 500;
    no stage of the pipeline runs. *)
Lemma handler_without_body (w : World) :
  exists e,
    run (build_handler w VUndefined) =
      (Returned tt, [EConsoleError [AStr "Error:"; AErr e];
                     ERespond 500 [("error", err_message e)%string]]).
Proof. eexists. reflexivity. Qed.

(** Task t1, round 2, checks a and b, every collaborator answering: the
    acknowledgment, the generation, the repository [t1-round2] with its
    three files in order, the pages site, the settling wait, and one POST of
    the notice. *)
Example scenario_end_to_end :
  exists prompt html readme license,
    run (build_handler happy_world sample_body) =
      (Returned tt,
       [ ERespond 200 [("message", "Request received, processing...")%string];
         EChatCompletion "gpt-4" prompt;
         EGetAuthenticated;
         ECreateRepo "t1-round2" true false;
         ESetTimeout 3000;
         EWriteFile (mkWrite "octocat" "t1-round2" "index.html" "Add index.html" html);
         EWriteFile (mkWrite "octocat" "t1-round2" "README.md" "Add README.md" readme);
         EWriteFile (mkWrite "octocat" "t1-round2" "LICENSE" "Add LICENSE" license);
         ECreatePagesSite "octocat" "t1-round2" "main" "/";
         ESetTimeout 30000;
         EPost sample_url sample_notice 10000;
         EConsoleLog [AStr "Successfully notified evaluation API"];
         EConsoleLog [AStr "Successfully processed request for task:"; AVal (VStr "t1")] ]).
Proof. do 4 eexists. vm_compute. reflexivity. Qed.

Example numbered_checks_a_b (w : World) :
  numbered_checks w (VArr [VStr "a"; VStr "b"]) = Returned ("1. a" ++ newline ++ "2. b")%string.
Proof. reflexivity. Qed.

(** Conversions that throw: an object with an own [toString], as a
    substitution of a template literal and as the [length] compared with 0. *)
Example ToString_own_toString (w : World) :
  ToString w (VObj [("toString", VStr "x")])
    = Thrown (TypeError "Cannot convert object to primitive value").
Proof. reflexivity. Qed.

Example has_attachments_length_object (w : World) :
  has_attachments w (VObj [("length", VObj [("toString", VNum 1)])])
    = Thrown (TypeError "Cannot convert object to primitive value")
  /\ has_attachments w (VObj [("length", VObj [])]) = Returned false
  /\ has_attachments w (VObj [("length", VNum 2)]) = Returned true.
Proof. repeat split. Qed.

Example ToString_beyond_safe_integers (w : World) :
  ToString w (VNum (10 ^ 21)) = Returned (Number_toString w (10 ^ 21))
  /\ ToString w (VNum 9007199254740991) = Returned "9007199254740991"%string.
Proof. split; reflexivity. Qed.

Example strip_fences_example :
  strip_fences ("```html" ++ newline ++ "<p>hi</p>" ++ newline ++ "```")%string
    = ("<p>hi</p>" ++ newline)%string.
Proof. reflexivity. Qed.

Example Object_entries_example :
  map fst (Object_entries [("b", 1); ("10", 2); ("index.html", 3); ("2", 4); ("01", 5)]%string)
    = ["2"; "10"; "b"; "index.html"; "01"]%string.
Proof. reflexivity. Qed.

Example base64_example : base64 "hello" = "aGVsbG8="%string.
Proof. reflexivity. Qed.

(** * Further properties *)

(** ** The notifier against any endpoint *)


Lemma for_of_cons {X S R : Type} (x : X) (xs : list X) (body : X -> S -> M (flow S R))
    (s : S) (tr : trace) :
  for_of (x :: xs) body s tr =
    match body x s tr with
    | (Returned (Continue s'), tr') => for_of xs body s' tr'
    | (Returned (Break r), tr') => (Returned (Break r), tr')
    | (Thrown e, tr') => (Thrown e, tr')
    end.
Proof.
  cbn [for_of]. unfold bind. now destruct (body x s tr) as [[[s' | r] | e] tr'].
Qed.

Lemma doubling_S (delay : Z) (m : nat) :
  ESetTimeout delay :: map (fun k => ESetTimeout (delay * 2 * 2 ^ Z.of_nat k)) (seq 0 m) =
  map (fun k => ESetTimeout (delay * 2 ^ Z.of_nat k)) (seq 0 (S m)).
Proof.
  rewrite <- cons_seq, <- seq_shift. cbn [map]. rewrite map_map.
  change (Z.of_nat 0) with 0. rewrite Z.pow_0_r, Z.mul_1_r. f_equal.
  apply map_ext. intros k. replace (Z.of_nat (S k)) with (1 + Z.of_nat k) by lia.
  rewrite Z.pow_add_r by lia. now rewrite Z.mul_assoc.
Qed.

Section AnyEndpoint.

Variable w : World.
Variable data : notice.
Variable url : js_value.

(** What one attempt can do: end the delivery on a 200, go on at once on
    another resolved response, or log the rejection and wait. *)
Lemma notify_attempt_cases (i : nat) (delay : Z) (tr : trace) :
  (exists body,
      evaluation_endpoint w (count is_post tr) url data = Response 200 body
      /\ notify_attempt w data url i delay tr =
           (Returned (Break tt), tr ++ [EPost url data 10000; success_log]))
  \/ notify_attempt w data url i delay tr =
       (Returned (Continue delay), tr ++ [EPost url data 10000])
  \/ (exists msg,
        notify_attempt w data url i delay tr =
          if (i <? maxRetries - 1)%nat
          then (Returned (Continue (delay * 2)),
                tr ++ [EPost url data 10000; EConsoleError msg; ESetTimeout delay])
          else (Returned (Continue delay),
                tr ++ [EPost url data 10000; EConsoleError msg])).
Proof.
  destruct (evaluation_endpoint w (count is_post tr) url data) as [e | status body] eqn:E.
  - right; right. apply notify_attempt_rejected. now rewrite E.
  - destruct (validateStatus status) eqn:V.
    + destruct (Z.eq_dec status 200) as [-> | N].
      * left. exists body. split; [reflexivity |]. now apply notify_attempt_200 with (body := body).
      * right; left. now apply notify_attempt_resolved_other with (status := status) (body := body).
    + right; right. apply notify_attempt_rejected. rewrite E. simpl. now rewrite V.
Qed.

Lemma count_post_cons (e : effect) (tr : trace) :
  count is_post (e :: tr) = ((if is_post e then 1 else 0) + count is_post tr)%nat.
Proof. unfold count. simpl. now destruct (is_post e). Qed.

(** The loop from index [i] on, for [n] more turns, against any endpoint. *)
Lemma notify_loop_any (n : nat) :
  forall (i : nat) (delay : Z) (tr : trace),
    exists new m,
      snd (for_of (seq i n) (notify_attempt w data url) delay tr) = tr ++ new
      /\ sleeps new = map (fun k => ESetTimeout (delay * 2 ^ Z.of_nat k)) (seq 0 m)
      /\ (m <= n)%nat /\ (m <= maxRetries - 1 - i)%nat
      /\ (forall r,
            fst (for_of (seq i n) (notify_attempt w data url) delay tr) = Returned (Break r) ->
            (1 <= count is_post new <= n)%nat /\ (m < count is_post new)%nat
            /\ exists before body,
                 new = before ++ [EPost url data 10000; success_log]
                 /\ evaluation_endpoint w (count is_post tr + count is_post before) url data
                      = Response 200 body)
      /\ (forall d,
            fst (for_of (seq i n) (notify_attempt w data url) delay tr) = Returned (Continue d) ->
            count is_post new = n)
      /\ (forall e,
            fst (for_of (seq i n) (notify_attempt w data url) delay tr) <> Thrown e).
Proof.
  induction n as [| n IH]; intros i delay tr.
  - exists [], 0%nat. simpl. rewrite app_nil_r.
    repeat split; try lia; try discriminate; reflexivity.
  - cbn [seq]. rewrite for_of_cons.
    destruct (notify_attempt_cases i delay tr) as [[body [Hreply Hstep]] | [Hstep | [msg Hstep]]].
    + rewrite Hstep. exists [EPost url data 10000; success_log], 0%nat. cbn [fst snd].
      split; [reflexivity |]. split; [reflexivity |]. split; [lia |]. split; [lia |].
      split; [| split; [discriminate | discriminate]].
      intros r _. change (count is_post [EPost url data 10000; success_log]) with 1%nat.
      split; [lia |]. split; [lia |].
      exists [], body. split; [reflexivity |].
      change (count is_post []) with 0%nat. now rewrite Nat.add_0_r.
    + rewrite Hstep.
      destruct (IH (S i) delay (tr ++ [EPost url data 10000]))
        as [new [m [E [Hs [Hm1 [Hm2 [HB [HC HT]]]]]]]].
      exists (EPost url data 10000 :: new), m. rewrite E, <- app_assoc.
      split; [reflexivity |]. split; [exact Hs |].
      split; [lia |]. split; [lia |]. rewrite count_post_cons. simpl.
      split; [| split; [| exact HT]].
      * intros r Hr. destruct (HB r Hr) as [Hc [Hlt [before [body [-> Hreply]]]]].
        split; [lia |]. split; [lia |].
        exists (EPost url data 10000 :: before), body. split; [reflexivity |].
        rewrite count_app in Hreply. rewrite count_post_cons. simpl.
        change (count is_post [EPost url data 10000]) with 1%nat in Hreply.
        now replace (count is_post tr + S (count is_post before))%nat
          with (count is_post tr + 1 + count is_post before)%nat by lia.
      * intros d Hd. now rewrite (HC d Hd).
    + destruct (i <? maxRetries - 1)%nat eqn:Hi; rewrite Hstep.
      * apply Nat.ltb_lt in Hi.
        destruct (IH (S i) (delay * 2)
                    (tr ++ [EPost url data 10000; EConsoleError msg; ESetTimeout delay]))
          as [new [m [E [Hs [Hm1 [Hm2 [HB [HC HT]]]]]]]].
        exists (EPost url data 10000 :: EConsoleError msg :: ESetTimeout delay :: new), (S m).
        rewrite E, <- app_assoc.
        split; [reflexivity |].
        split; [unfold sleeps in *; cbn [filter is_sleep]; rewrite Hs; apply doubling_S |].
        split; [lia |]. split; [lia |].
        rewrite !count_post_cons. simpl.
        split; [| split; [| exact HT]].
        -- intros r Hr. destruct (HB r Hr) as [Hc [Hlt [before [body [-> Hreply]]]]].
           split; [lia |]. split; [lia |].
           exists (EPost url data 10000 :: EConsoleError msg :: ESetTimeout delay :: before), body.
           split; [reflexivity |].
           rewrite count_app in Hreply. rewrite !count_post_cons. simpl.
           change (count is_post [EPost url data 10000; EConsoleError msg; ESetTimeout delay])
             with 1%nat in Hreply.
           now replace (count is_post tr + S (count is_post before))%nat
             with (count is_post tr + 1 + count is_post before)%nat by lia.
        -- intros d Hd. now rewrite (HC d Hd).
      * apply Nat.ltb_ge in Hi.
        destruct (IH (S i) delay (tr ++ [EPost url data 10000; EConsoleError msg]))
          as [new [m [E [Hs [Hm1 [Hm2 [HB [HC HT]]]]]]]].
        exists (EPost url data 10000 :: EConsoleError msg :: new), m.
        rewrite E, <- app_assoc.
        split; [reflexivity |]. split; [exact Hs |].
        split; [lia |]. split; [lia |].
        rewrite !count_post_cons. simpl.
        split; [| split; [| exact HT]].
        -- intros r Hr. destruct (HB r Hr) as [Hc [Hlt [before [body [-> Hreply]]]]].
           split; [lia |]. split; [lia |].
           exists (EPost url data 10000 :: EConsoleError msg :: before), body.
           split; [reflexivity |].
           rewrite count_app in Hreply. rewrite !count_post_cons. simpl.
           change (count is_post [EPost url data 10000; EConsoleError msg])
             with 1%nat in Hreply.
           now replace (count is_post tr + S (count is_post before))%nat
             with (count is_post tr + 1 + count is_post before)%nat by lia.
        -- intros d Hd. now rewrite (HC d Hd).
Qed.

(** Turns answered by a resolved response other than 200: the loop goes
    on at once, with nothing logged and the delay as it was. *)
Lemma resolved_other_attempts (n : nat) :
  forall (i : nat) (delay : Z) (tr : trace),
    (forall j, (j < n)%nat ->
       exists status body,
         evaluation_endpoint w (count is_post tr + j) url data = Response status body
         /\ validateStatus status = true /\ status <> 200) ->
    for_of (seq i n) (notify_attempt w data url) delay tr =
      (Returned (Continue delay), tr ++ repeat (EPost url data 10000) n).
Proof.
  induction n as [| n IH]; intros i delay tr H.
  - simpl. unfold ret. now rewrite app_nil_r.
  - cbn [seq]. rewrite for_of_cons.
    destruct (H 0%nat ltac:(lia)) as [status [body [Hr [V N]]]].
    rewrite Nat.add_0_r in Hr.
    rewrite (notify_attempt_resolved_other w data url i delay tr status body Hr V N).
    rewrite IH.
    + cbn [repeat]. now rewrite <- app_assoc.
    + intros j Hj. rewrite count_app.
      change (count is_post [EPost url data 10000]) with 1%nat.
      replace (count is_post tr + 1 + j)%nat with (count is_post tr + S j)%nat by lia.
      apply H. lia.
Qed.

(** One turn of the loop, by the way axios settles the POST. *)
Lemma notify_attempt_step (i : nat) (delay : Z) (tr : trace) :
  notify_attempt w data url i delay tr =
    match axios_settle (evaluation_endpoint w (count is_post tr) url data) with
    | Returned response =>
        if resp_status response =? 200
        then (Returned (Break tt), tr ++ [EPost url data 10000; success_log])
        else (Returned (Continue delay), tr ++ [EPost url data 10000])
    | Thrown e =>
        if (i <? maxRetries - 1)%nat
        then (Returned (Continue (delay * 2)),
              tr ++ [EPost url data 10000; attempt_failed (i + 1) e; ESetTimeout delay])
        else (Returned (Continue delay),
              tr ++ [EPost url data 10000; attempt_failed (i + 1) e])
    end.
Proof.
  unfold notify_attempt, try_catch, bind, axios_post, await, perform, ret, sleep.
  destruct (axios_settle (evaluation_endpoint w (count is_post tr) url data)) as [response | e].
  - destruct (resp_status response =? 200); [| reflexivity].
    unfold perform. now rewrite <- app_assoc.
  - destruct (i <? maxRetries - 1)%nat; unfold perform, attempt_failed;
      rewrite <- !app_assoc; reflexivity.
Qed.

Lemma timers_then_post_nil : timers_then_post url data [].
Proof. intros [| b before] ms after H; discriminate H. Qed.

Lemma timers_then_post_skip (x : effect) (l : trace) :
  is_sleep x = false -> timers_then_post url data l -> timers_then_post url data (x :: l).
Proof.
  intros Hx Hl [| b before] ms after H; inversion H; subst.
  - discriminate Hx.
  - eapply Hl. reflexivity.
Qed.

Lemma timers_then_post_timer (ms : Z) (l : trace) :
  timers_then_post url data (EPost url data 10000 :: l) ->
  timers_then_post url data (ESetTimeout ms :: EPost url data 10000 :: l).
Proof.
  intros Hl [| b before] ms' after H; inversion H; subst.
  - now exists l.
  - eapply Hl. eassumption.
Qed.

Lemma rejections_logged_nil (base i : nat) : rejections_logged w url data base i [].
Proof. intros [| b before] after e H; discriminate H. Qed.

Lemma rejections_logged_skip (base i : nat) (x : effect) (l : trace) :
  is_post x = false ->
  rejections_logged w url data base i l -> rejections_logged w url data base i (x :: l).
Proof.
  intros Hx Hl [| b before] after e H; inversion H; subst.
  - discriminate Hx.
  - rewrite count_post_cons, Hx. simpl. now apply Hl.
Qed.

Lemma rejections_logged_post (base i : nat) (l : trace) :
  (forall e, axios_settle (evaluation_endpoint w base url data) = Thrown e ->
             exists rest, l = attempt_failed (i + 1) e :: rest) ->
  rejections_logged w url data (S base) (S i) l ->
  rejections_logged w url data base i (EPost url data 10000 :: l).
Proof.
  intros H0 Hl [| b before] after e H; inversion H; subst.
  - change (count is_post []) with 0%nat. rewrite !Nat.add_0_r. apply H0.
  - rewrite count_post_cons. simpl.
    replace (base + S (count is_post before))%nat with (S base + count is_post before)%nat by lia.
    replace (i + S (count is_post before) + 1)%nat with (S i + count is_post before + 1)%nat
      by lia.
    now apply Hl.
Qed.

(** The shape of the loop that runs to the last index: it starts with a
    POST, every timer is followed by the POST of the next turn, and every
    rejected POST by its log line. *)
Lemma notify_loop_shape (n : nat) :
  forall (i : nat) (delay : Z) (tr : trace),
    (i + n = maxRetries)%nat ->
    exists new,
      snd (for_of (seq i n) (notify_attempt w data url) delay tr) = tr ++ new
      /\ ((0 < n)%nat -> exists rest, new = EPost url data 10000 :: rest)
      /\ timers_then_post url data new
      /\ rejections_logged w url data (count is_post tr) i new.
Proof.
  induction n as [| n IH]; intros i delay tr Hin.
  - exists []. simpl. rewrite app_nil_r.
    split; [reflexivity |]. split; [lia |].
    split; [apply timers_then_post_nil | apply rejections_logged_nil].
  - cbn [seq]. rewrite for_of_cons, notify_attempt_step.
    assert (Hbase : forall more,
              count is_post (tr ++ EPost url data 10000 :: more)
                = (S (count is_post tr) + count is_post more)%nat).
    { intros more. rewrite count_app, count_post_cons. simpl. lia. }
    destruct (axios_settle (evaluation_endpoint w (count is_post tr) url data))
      as [response | e] eqn:Hset.
    + destruct (resp_status response =? 200).
      * exists [EPost url data 10000; success_log]. cbn [snd].
        split; [reflexivity |]. split; [eauto |]. split.
        -- repeat (apply timers_then_post_skip; [reflexivity |]). apply timers_then_post_nil.
        -- apply rejections_logged_post;
             [intros e' He'; rewrite Hset in He'; discriminate He' |].
           apply rejections_logged_skip; [reflexivity |]. apply rejections_logged_nil.
      * destruct (IH (S i) delay (tr ++ [EPost url data 10000]) ltac:(lia))
          as [new [E [_ [Ht Hl]]]].
        exists (EPost url data 10000 :: new). rewrite E, <- app_assoc.
        split; [reflexivity |]. split; [eauto |]. split.
        -- apply timers_then_post_skip; [reflexivity | exact Ht].
        -- apply rejections_logged_post;
             [intros e' He'; rewrite Hset in He'; discriminate He' |].
           rewrite Hbase in Hl. change (count is_post []) with 0%nat in Hl.
           now rewrite Nat.add_0_r in Hl.
    + destruct (i <? maxRetries - 1)%nat eqn:Hi.
      * apply Nat.ltb_lt in Hi.
        destruct (IH (S i) (delay * 2)
                    (tr ++ [EPost url data 10000; attempt_failed (i + 1) e; ESetTimeout delay])
                    ltac:(lia))
          as [new [E [Hp [Ht Hl]]]].
        destruct Hp as [rest ->]; [unfold maxRetries in *; lia |].
        exists (EPost url data 10000 :: attempt_failed (i + 1) e :: ESetTimeout delay
                  :: EPost url data 10000 :: rest).
        rewrite E, <- app_assoc.
        split; [reflexivity |]. split; [eauto |]. split.
        -- repeat (apply timers_then_post_skip; [reflexivity |]).
           apply timers_then_post_timer. exact Ht.
        -- apply rejections_logged_post.
           { intros e' He'. rewrite Hset in He'. inversion He'. eauto. }
           repeat (apply rejections_logged_skip; [reflexivity |]).
           rewrite Hbase in Hl.
           change (count is_post [attempt_failed (i + 1) e; ESetTimeout delay]) with 0%nat in Hl.
           now rewrite Nat.add_0_r in Hl.
      * destruct (IH (S i) delay
                    (tr ++ [EPost url data 10000; attempt_failed (i + 1) e]) ltac:(lia))
          as [new [E [_ [Ht Hl]]]].
        exists (EPost url data 10000 :: attempt_failed (i + 1) e :: new).
        rewrite E, <- app_assoc.
        split; [reflexivity |]. split; [eauto |]. split.
        -- repeat (apply timers_then_post_skip; [reflexivity |]). exact Ht.
        -- apply rejections_logged_post.
           { intros e' He'. rewrite Hset in He'. inversion He'. eauto. }
           apply rejections_logged_skip; [reflexivity |].
           rewrite Hbase in Hl.
           change (count is_post [attempt_failed (i + 1) e]) with 0%nat in Hl.
           now rewrite Nat.add_0_r in Hl.
Qed.

(** The effects of a delivery are those of its loop. *)
Lemma notifyEvaluation_trace (tr : trace) :
  snd (notifyEvaluation w data url tr) =
    snd (for_of (seq 0 maxRetries) (notify_attempt w data url) 1000 tr).
Proof.
  unfold notifyEvaluation, bind. cbv zeta.
  now destruct (for_of (seq 0 maxRetries) (notify_attempt w data url) 1000 tr)
    as [[[d | []] | e] tr1].
Qed.

End AnyEndpoint.

Lemma total_delay_app (a b : trace) : total_delay (a ++ b) = total_delay a + total_delay b.
Proof.
  induction a as [| e a IH]; [reflexivity |].
  destruct e; simpl; rewrite ?IH; lia.
Qed.

Lemma total_delay_sleeps (tr : trace) : total_delay tr = total_delay (sleeps tr).
Proof.
  unfold sleeps. induction tr as [| e tr IH]; [reflexivity |].
  destruct e; simpl; rewrite ?IH; reflexivity.
Qed.

(** X1: against any endpoint whatever, one delivery makes at least one and
    at most five POSTs and sets at most four timers; the k-th timer is of
    1000 * 2^k ms, so the timers are 1000, 2000, 4000, 8000 ms at most and
    a delivery waits 15 seconds in all at most; a delivery starts with a
    POST, and each timer is immediately followed by another POST of the
    same notice to the same URL. *)
Theorem notify_bounded_against_any_endpoint :
  forall (w : World) (data : notice) (url : js_value) (tr : trace),
    exists new m,
      snd (notifyEvaluation w data url tr) = tr ++ new
      /\ (1 <= count is_post new <= 5)%nat
      /\ sleeps new = map (fun k => ESetTimeout (1000 * 2 ^ Z.of_nat k)) (seq 0 m)
      /\ (m <= 4)%nat /\ (m < count is_post new)%nat
      /\ 0 <= total_delay new <= 15000
      /\ (exists rest, new = EPost url data 10000 :: rest)
      /\ (forall before ms after,
            new = before ++ ESetTimeout ms :: after ->
            exists rest, after = EPost url data 10000 :: rest).
Proof.
  intros w data url tr.
  destruct (notify_loop_any w data url maxRetries 0 1000 tr)
    as [new [m [E [Hs [Hm1 [Hm2 [HB [HC HT]]]]]]]].
  destruct (notify_loop_shape w data url maxRetries 0 1000 tr eq_refl)
    as [new' [E' [Hfirst [Htimers _]]]].
  rewrite E in E'. apply app_inv_head in E'. subst new'.
  exists new, m.
  assert (Hsnd : snd (notifyEvaluation w data url tr) = tr ++ new).
  { unfold notifyEvaluation, bind. cbv zeta.
    destruct (for_of (seq 0 maxRetries) (notify_attempt w data url) 1000 tr)
      as [[[d | []] | e] tr1]; simpl in *; exact E. }
  assert (Hposts : (1 <= count is_post new <= 5)%nat /\ (m < count is_post new)%nat).
  { destruct (for_of (seq 0 maxRetries) (notify_attempt w data url) 1000 tr)
      as [[[d | r] | e] tr1]; simpl in *.
    - rewrite (HC d eq_refl). unfold maxRetries in *. lia.
    - destruct (HB r eq_refl) as [Hc [Hlt _]]. unfold maxRetries in *. lia.
    - now destruct (HT e). }
  unfold maxRetries in *.
  split; [exact Hsnd |]. split; [tauto |]. split; [exact Hs |].
  split; [lia |]. split; [tauto |].
  split; [| split; [apply Hfirst; lia | exact Htimers]].
  rewrite total_delay_sleeps, Hs.
  destruct m as [| [| [| [| [| m]]]]]; simpl; lia.
Qed.

(** X2: a delivery returns only right after a POST that was answered with
    status 200, having logged the success; and it throws nothing but its
    own error, after five POSTs: the error of a failed attempt is logged,
    never passed on.  Every POST that axios rejects with an error is
    immediately followed by the line [Attempt k failed:] with the message
    of that error, k being the number of the attempt, from 1. *)
Theorem notify_outcome :
  forall (w : World) (data : notice) (url : js_value) (tr : trace),
    (fst (notifyEvaluation w data url tr) = Returned tt ->
       exists before body,
         snd (notifyEvaluation w data url tr) =
           tr ++ before ++ [EPost url data 10000;
                            EConsoleLog [AStr "Successfully notified evaluation API"]]
         /\ evaluation_endpoint w (count is_post tr + count is_post before) url data
              = Response 200 body)
    /\ (forall e,
          fst (notifyEvaluation w data url tr) = Thrown e ->
          e = Error "Failed to notify evaluation API after retries"
          /\ exists new,
               snd (notifyEvaluation w data url tr) = tr ++ new
               /\ count is_post new = 5%nat)
    /\ exists new,
         snd (notifyEvaluation w data url tr) = tr ++ new
         /\ forall before after e,
              new = before ++ EPost url data 10000 :: after ->
              axios_settle
                (evaluation_endpoint w (count is_post tr + count is_post before) url data)
                = Thrown e ->
              exists rest,
                after =
                  EConsoleError
                    [AStr ("Attempt " ++ string_of_nat (count is_post before + 1) ++ " failed:");
                     AStr (err_message e)] :: rest.
Proof.
  intros w data url tr.
  rewrite <- and_assoc. split.
  2: { destruct (notify_loop_shape w data url maxRetries 0 1000 tr eq_refl)
         as [new [E [_ [_ Hlog]]]].
       exists new. split; [now rewrite notifyEvaluation_trace |].
       intros before after e Hsplit Hset. exact (Hlog before after e Hsplit Hset). }
  destruct (notify_loop_any w data url maxRetries 0 1000 tr)
    as [new [m [E [Hs [Hm1 [Hm2 [HB [HC HT]]]]]]]].
  unfold notifyEvaluation, bind. cbv zeta.
  destruct (for_of (seq 0 maxRetries) (notify_attempt w data url) 1000 tr)
    as [[[d | []] | e] tr1]; simpl in *; subst tr1.
  - split; [discriminate |]. intros e He. inversion He. split; [reflexivity |].
    exists new. split; [reflexivity |]. exact (HC d eq_refl).
  - split; [| discriminate]. intros _.
    destruct (HB tt eq_refl) as [_ [_ [before [body [-> Hreply]]]]].
    exists before, body. split; [reflexivity | exact Hreply].
  - now destruct (HT e).
Qed.

(** Two 503 responses, then 200: each rejected POST is followed by its
    log line and by the timer, the third POST by the log of the success. *)
Example notify_flaky_trace :
  snd (notifyEvaluation (with_endpoint happy_world (flaky 2)) sample_notice sample_url []) =
    [ EPost sample_url sample_notice 10000;
      EConsoleError [AStr "Attempt 1 failed:"; AStr "Request failed with status code 503"];
      ESetTimeout 1000;
      EPost sample_url sample_notice 10000;
      EConsoleError [AStr "Attempt 2 failed:"; AStr "Request failed with status code 503"];
      ESetTimeout 2000;
      EPost sample_url sample_notice 10000;
      EConsoleLog [AStr "Successfully notified evaluation API"] ].
Proof. vm_compute. reflexivity. Qed.

(** X3: when every attempt is answered by a response of the 2xx class with
    a status other than 200, the delivery makes its five POSTs one right
    after the other, with no timer and nothing logged, and throws. *)
Theorem notify_other_2xx_retried_at_once :
  forall (w : World) (data : notice) (url : js_value) (tr : trace),
    (forall j, (j < 5)%nat ->
       exists status body,
         evaluation_endpoint w (count is_post tr + j) url data = Response status body
         /\ 200 < status < 300) ->
    notifyEvaluation w data url tr =
      (Thrown (Error "Failed to notify evaluation API after retries"),
       tr ++ repeat (EPost url data 10000) 5).
Proof.
  intros w data url tr H. unfold notifyEvaluation, bind. cbv zeta.
  rewrite (resolved_other_attempts w data url maxRetries 0 1000 tr); [reflexivity |].
  intros j Hj. destruct (H j Hj) as [status [body [Hr Hs]]].
  exists status, body. split; [exact Hr |]. split; [| lia].
  unfold validateStatus. apply andb_true_iff. split; [apply Z.leb_le | apply Z.ltb_lt]; lia.
Qed.

Lemma notify_other_2xx_retried_at_once_witness :
  notifyEvaluation (with_endpoint happy_world (fun _ => Response 202 "accepted"))
    sample_notice sample_url [] =
    (Thrown (Error "Failed to notify evaluation API after retries"),
     [] ++ repeat (EPost sample_url sample_notice 10000) 5).
Proof.
  apply (notify_other_2xx_retried_at_once
           (with_endpoint happy_world (fun _ => Response 202 "accepted"))
           sample_notice sample_url []).
  intros j Hj. exists 202, "accepted"%string. split; [reflexivity | lia].
Defined.

(** ** Fences *)



Lemma prefix_cons (a : ascii) (p : string) (c : ascii) (rest : string) :
  String.prefix (String a p) (String c rest) = Ascii.eqb c a && String.prefix p rest.
Proof.
  simpl. destruct (ascii_dec a c) as [-> | N].
  - now rewrite Ascii.eqb_refl.
  - assert (E : Ascii.eqb c a = false) by (apply Ascii.eqb_neq; congruence).
    now rewrite E.
Qed.

Lemma prefix_fence_lead (s : string) :
  String.prefix fence s = true <-> (3 <= lead s)%nat.
Proof.
  unfold fence.
  destruct s as [| c1 s]; [simpl; split; [discriminate | lia] |].
  rewrite prefix_cons. simpl lead. fold backtick.
  destruct (Ascii.eqb c1 backtick); [| simpl; split; [discriminate | lia]].
  destruct s as [| c2 s]; [simpl; split; [discriminate | lia] |].
  rewrite prefix_cons. simpl lead. fold backtick.
  destruct (Ascii.eqb c2 backtick); [| simpl; split; [discriminate | lia]].
  destruct s as [| c3 s]; [simpl; split; [discriminate | lia] |].
  rewrite prefix_cons. simpl lead. fold backtick.
  destruct (Ascii.eqb c3 backtick); simpl; split; try discriminate; try lia.
  - destruct s; reflexivity.
Qed.

Lemma contains_false_prefix (pat s : string) :
  contains pat s = false -> String.prefix pat s = false.
Proof. destruct s; simpl; intros H; now apply orb_false_iff in H. Qed.

(** After the removal no fence is left, and the result starts with no
    more backticks than the text did. *)
Lemma remove_fence_invariant (s : string) :
  (forall skip nl, contains fence (remove_all fence skip nl s) = false)
  /\ (lead (remove_all fence 0 false s) <= lead s)%nat.
Proof.
  induction s as [| c rest [IH1 IH2]].
  - split; [intros [| k] nl; reflexivity | simpl; lia].
  - assert (Hkeep : String.prefix fence (String c rest) = false ->
              contains fence (String c (remove_all fence 0 false rest)) = false).
    { intros Hp. cbn [contains]. rewrite IH1, orb_false_r.
      destruct (String.prefix fence (String c (remove_all fence 0 false rest))) eqn:E;
        [| reflexivity].
      apply prefix_fence_lead in E. simpl lead in E.
      assert (3 <= lead (String c rest))%nat; [| apply prefix_fence_lead in H; congruence].
      simpl lead. destruct (Ascii.eqb c backtick); lia. }
    split.
    + intros [| k] nl; cbn [remove_all]; [| apply IH1].
      destruct (nl && Ascii.eqb c "010")%bool; [apply IH1 |].
      destruct (String.prefix fence (String c rest)) eqn:Hp; [apply IH1 | now apply Hkeep].
    + cbn [remove_all andb].
      destruct (String.prefix fence (String c rest)) eqn:Hp.
      * apply prefix_fence_lead in Hp.
        specialize (IH1 (String.length fence - 1)%nat true).
        apply contains_false_prefix in IH1.
        destruct (le_lt_dec 3 (lead (remove_all fence (String.length fence - 1) true rest)))
          as [L | L]; [apply prefix_fence_lead in L; congruence | lia].
      * simpl lead. destruct (Ascii.eqb c backtick); lia.
Qed.

Lemma prefix_app_false (p q s : string) :
  String.prefix p s = false -> String.prefix (p ++ q) s = false.
Proof.
  revert s. induction p as [| a p IH]; intros s H; [destruct s; discriminate |].
  destruct s as [| c s]; [reflexivity |].
  cbn [append]. rewrite prefix_cons in *.
  destruct (Ascii.eqb c a); [simpl in *; now apply IH | reflexivity].
Qed.

(** A text in which [pat] does not occur is left as it is. *)
Lemma remove_all_absent (pat s : string) :
  contains pat s = false -> remove_all pat 0 false s = s.
Proof.
  induction s as [| c rest IH]; [reflexivity |].
  cbn [contains remove_all andb]. intros H. apply orb_false_iff in H. destruct H as [Hp Hc].
  rewrite Hp. now rewrite IH.
Qed.

Lemma contains_app_false (p q s : string) :
  contains p s = false -> contains (p ++ q) s = false.
Proof.
  induction s as [| c rest IH]; cbn [contains]; intros H; apply orb_false_iff in H;
    destruct H as [Hp Hc]; rewrite (prefix_app_false p q _ Hp); [reflexivity |].
  now apply IH.
Qed.

(** X4: the clean-up of [generateCode] leaves no fence (three backticks) in
    the content, whatever the model answered, and a content with no fence in
    it is returned unchanged. *)
Theorem strip_fences_leaves_no_fence :
  forall s : string,
    contains fence (strip_fences s) = false
    /\ (contains fence s = false -> strip_fences s = s).
Proof.
  intros s. unfold strip_fences. split.
  - apply remove_fence_invariant.
  - intros H. rewrite (remove_all_absent (fence ++ "html")%string s).
    + now apply remove_all_absent.
    + now apply contains_app_false.
Qed.

(** ** The generator *)

Lemma numbered_checks_not_array (w : World) (checks : js_value) :
  (forall l, checks <> VArr l) -> exists e, numbered_checks w checks = Thrown e.
Proof.
  intros H. destruct checks; simpl; eauto. now destruct (H elements).
Qed.

(** X5: on every input, [generateCode] asks the model at most once, for
    gpt-4: once, with the prompt, when the prompt can be built, and not at
    all when building it throws, the error being passed on; so not at all
    when [checks] is not an array (it throws a TypeError first).  When
    it returns, the bundle holds exactly index.html, README.md and LICENSE,
    in this order; index.html is the content of the first choice of the
    answer with its fences removed, so no fence is left in it, and the other
    choices are ignored.  An answer with no choice, or with a null content,
    makes it throw after the call. *)
Theorem generateCode_asks_model_once :
  forall (w : World) (brief attachments checks : js_value) (tr : trace),
    (exists new,
        snd (generateCode w brief attachments checks tr) = tr ++ new
        /\ match build_prompt w brief attachments checks with
           | Returned prompt => new = [EChatCompletion "gpt-4" prompt]
           | Thrown e =>
               new = [] /\ fst (generateCode w brief attachments checks tr) = Thrown e
           end)
    /\ ((forall l, checks <> VArr l) ->
       exists e, generateCode w brief attachments checks tr = (Thrown e, tr))
    /\ (forall prompt,
          build_prompt w brief attachments checks = Returned prompt ->
          snd (generateCode w brief attachments checks tr)
            = tr ++ [EChatCompletion "gpt-4" prompt])
    /\ (forall files tr',
          generateCode w brief attachments checks tr = (Returned files, tr') ->
          exists prompt content others readme,
            build_prompt w brief attachments checks = Returned prompt
            /\ chat_completions_create w "gpt-4" prompt
                 = Returned (mkCompletion (Some content :: others))
            /\ generateReadme w brief checks = Returned readme
            /\ tr' = tr ++ [EChatCompletion "gpt-4" prompt]
            /\ files = [ ("index.html", strip_fences content); ("README.md", readme);
                         ("LICENSE", getMITLicense w) ]%string
            /\ contains fence (strip_fences content) = false)
    /\ (forall prompt others,
          build_prompt w brief attachments checks = Returned prompt ->
          chat_completions_create w "gpt-4" prompt = Returned (mkCompletion [])
          \/ chat_completions_create w "gpt-4" prompt = Returned (mkCompletion (None :: others)) ->
          exists e,
            generateCode w brief attachments checks tr
              = (Thrown e, tr ++ [EChatCompletion "gpt-4" prompt])).
Proof.
  intros w brief attachments checks tr.
  assert (Hsent : forall prompt,
            build_prompt w brief attachments checks = Returned prompt ->
            snd (generateCode w brief attachments checks tr)
              = tr ++ [EChatCompletion "gpt-4" prompt]).
  { intros prompt Hp. unfold generateCode, bind, lift, await, ret. rewrite Hp.
    destruct (chat_completions_create w "gpt-4" prompt) as [response | e]; [| reflexivity].
    destruct (first_content response) as [content | e]; [| reflexivity].
    destruct (embed_attachments w attachments) as [[] | e]; [| reflexivity].
    now destruct (generateReadme w brief checks) as [readme | e]. }
  split; [| split; [| split; [exact Hsent | split]]].
  - destruct (build_prompt w brief attachments checks) as [prompt | e] eqn:Hp.
    + exists [EChatCompletion "gpt-4" prompt]. split; [now apply Hsent | reflexivity].
    + exists []. unfold generateCode, bind, lift. rewrite Hp. simpl.
      now rewrite app_nil_r.
  - intros H. destruct (numbered_checks_not_array w checks H) as [e He].
    unfold generateCode, bind, lift, build_prompt.
    destruct (ToString w brief) as [text | e0]; cbn [outcome_bind];
      [rewrite He; cbn [outcome_bind] |]; eauto.
  - intros files tr'. unfold generateCode, bind, lift, await, ret.
    destruct (build_prompt w brief attachments checks) as [prompt | e] eqn:Hp; [| discriminate].
    destruct (chat_completions_create w "gpt-4" prompt) as [[[| [content |] others]] | e] eqn:Hc;
      simpl; try discriminate.
    destruct (embed_attachments w attachments) as [[] | e]; [| discriminate].
    destruct (generateReadme w brief checks) as [readme | e] eqn:Hr; [| discriminate].
    intros H. inversion H; subst. exists prompt, content, others, readme.
    split; [reflexivity |]. split; [exact Hc |]. split; [reflexivity |].
    split; [reflexivity |]. split; [reflexivity |].
    unfold strip_fences. apply remove_fence_invariant.
  - intros prompt others Hp Hc. unfold generateCode, bind, lift, await. rewrite Hp.
    destruct Hc as [-> | ->]; simpl; eauto.
Qed.

Lemma generateCode_asks_model_once_witness :
  exists e,
    generateCode happy_world (VStr "A counter") VUndefined (VStr "not a list") []
      = (Thrown e, []).
Proof.
  apply (proj1 (proj2 (generateCode_asks_model_once happy_world (VStr "A counter") VUndefined
                         (VStr "not a list") []))).
  intros l. discriminate.
Defined.


Lemma prefix_app_self (p b : string) : String.prefix p (p ++ b) = true.
Proof.
  induction p as [| a p IH]; [destruct b; reflexivity |].
  cbn [append]. rewrite prefix_cons, Ascii.eqb_refl. exact IH.
Qed.

Lemma contains_here (p b : string) : contains p (p ++ b) = true.
Proof.
  destruct (p ++ b)%string eqn:E; cbn [contains]; rewrite <- E, prefix_app_self; reflexivity.
Qed.

Lemma contains_later (p a t : string) : contains p t = true -> contains p (a ++ t) = true.
Proof.
  intros H. induction a as [| c a IH]; [exact H |].
  cbn [append contains]. rewrite IH. apply orb_true_r.
Qed.

(** The numbered lines of the checks, once built, number the texts of
    the checks. *)
Lemma mapi_outcome_returned (w : World) (items : list js_value) :
  forall (i : nat) (lines : list string),
    mapi_outcome
      (fun i check => outcome_bind (ToString w check)
                        (fun text => Returned (string_of_nat (i + 1) ++ ". " ++ text)%string))
      i items = Returned lines ->
    exists texts,
      Forall2 (fun check text => ToString w check = Returned text) items texts
      /\ lines = mapi (fun i text => string_of_nat (i + 1) ++ ". " ++ text)%string i texts.
Proof.
  induction items as [| x items IH]; intros i lines H; cbn [mapi_outcome] in H.
  - inversion H. exists []. split; [constructor | reflexivity].
  - destruct (ToString w x) as [text | e] eqn:Hx; cbn [outcome_bind] in H; [| discriminate].
    match type of H with context [mapi_outcome ?f ?j ?l] =>
      destruct (mapi_outcome f j l) as [rest | e] eqn:Hrest
    end; cbn [outcome_bind] in H; [| discriminate].
    inversion H. destruct (IH _ _ Hrest) as [texts [F ->]].
    exists (text :: texts). split; [now constructor | reflexivity].
Qed.

(** X6: the README and the prompt agree: whenever the prompt can be built,
    the README is generated too, and both hold the text of the brief and
    the same numbered list of the checks, one line [i. check] per check,
    numbered from 1. *)
Theorem readme_lists_the_prompted_checks :
  forall (w : World) (brief attachments checks : js_value) (prompt : string),
    build_prompt w brief attachments checks = Returned prompt ->
    exists items texts brief_text readme,
      checks = VArr items
      /\ Forall2 (fun check text => ToString w check = Returned text) items texts
      /\ ToString w brief = Returned brief_text
      /\ generateReadme w brief checks = Returned readme
      /\ let list :=
           join newline
             (mapi (fun i text => string_of_nat (i + 1) ++ ". " ++ text)%string 0%nat texts) in
         contains list prompt = true /\ contains list readme = true
         /\ contains brief_text prompt = true
         /\ contains brief_text readme = true.
Proof.
  intros w brief attachments checks prompt H.
  assert (E : prompt = returned_text (build_prompt w brief attachments checks))
    by now rewrite H.
  unfold build_prompt, generateReadme in *.
  destruct (ToString w brief) as [brief_text | e] eqn:Hb; cbn [outcome_bind] in *;
    [| discriminate].
  destruct checks as [| | | | | items |]; cbn [numbered_checks outcome_bind] in *;
    try discriminate.
  match type of H with context [mapi_outcome ?f ?j ?l] =>
    destruct (mapi_outcome f j l) as [lines | e] eqn:Hl
  end; cbn [outcome_bind] in *; [| discriminate].
  match type of H with context [outcome_bind ?o _] => destruct o as [provided | e] end;
    cbn [outcome_bind returned_text] in *; [| discriminate].
  clear H. subst prompt.
  destruct (mapi_outcome_returned w items 0%nat lines Hl) as [texts [F ->]].
  exists items, texts, brief_text. eexists.
  split; [reflexivity |]. split; [exact F |]. split; [reflexivity |].
  split; [reflexivity |]. cbv zeta.
  repeat split.
  - apply contains_later, contains_later, contains_later, contains_here.
  - apply contains_later, contains_later, contains_later, contains_here.
  - apply contains_later, contains_here.
  - apply contains_later, contains_here.
Qed.

Lemma readme_lists_the_prompted_checks_witness :
  exists items texts brief_text readme,
    VArr [VStr "a"; VStr "b"] = VArr items
    /\ Forall2 (fun check text => ToString happy_world check = Returned text) items texts
    /\ ToString happy_world (VStr "A counter") = Returned brief_text
    /\ generateReadme happy_world (VStr "A counter") (VArr [VStr "a"; VStr "b"])
         = Returned readme
    /\ let list :=
         join newline
           (mapi (fun i text => string_of_nat (i + 1) ++ ". " ++ text)%string 0%nat texts) in
       contains list
         (returned_text (build_prompt happy_world (VStr "A counter") VUndefined
                           (VArr [VStr "a"; VStr "b"]))) = true
       /\ contains list readme = true
       /\ contains brief_text
            (returned_text (build_prompt happy_world (VStr "A counter") VUndefined
                              (VArr [VStr "a"; VStr "b"]))) = true
       /\ contains brief_text readme = true.
Proof.
  exact (readme_lists_the_prompted_checks happy_world (VStr "A counter") VUndefined
           (VArr [VStr "a"; VStr "b"]) _ eq_refl).
Defined.

Lemma map_outcome_thrown {X Y : Type} (f : X -> outcome Y) (l : list X) (x : X) (e : js_error) :
  In x l -> f x = Thrown e -> exists e', map_outcome f l = Thrown e'.
Proof.
  induction l as [| y l IH]; intros Hin Hx; [contradiction |].
  simpl. destruct Hin as [-> | Hin].
  - rewrite Hx. simpl. eauto.
  - destruct (f y) as [v | e1]; simpl; [| eauto].
    destruct (IH Hin Hx) as [e' ->]. simpl. eauto.
Qed.

(** X7: the attachments of a request.  A value that is falsy or an empty
    array counts as no attachments: the prompt is the one of a request
    without the property.  A non-empty string, or an array with a null
    element, makes [generateCode] throw a TypeError before the model is
    asked: nothing is sent. *)
Theorem attachments_edge_cases :
  forall (w : World) (brief checks : js_value) (tr : trace),
    (forall a,
        a = VNull \/ a = VArr [] \/ a = VStr EmptyString \/ a = VBool false \/ a = VNum 0 ->
        build_prompt w brief a checks = build_prompt w brief VUndefined checks)
    /\ (forall s,
          s <> EmptyString ->
          exists e, generateCode w brief (VStr s) checks tr = (Thrown e, tr))
    /\ (forall items,
          In VNull items ->
          exists e, generateCode w brief (VArr items) checks tr = (Thrown e, tr)).
Proof.
  intros w brief checks tr. split; [| split].
  - intros a [-> | [-> | [-> | [-> | ->]]]]; reflexivity.
  - intros s Hs. unfold generateCode, bind, lift, build_prompt.
    destruct (ToString w brief) as [text | e]; cbn [outcome_bind];
      [| exists e; reflexivity].
    destruct (numbered_checks w checks) as [req | e]; cbn [outcome_bind];
      [| exists e; reflexivity].
    assert (H : has_attachments w (VStr s) = Returned true).
    { destruct s as [| c s]; [contradiction | reflexivity]. }
    rewrite H. eexists. reflexivity.
  - intros items Hin. unfold generateCode, bind, lift, build_prompt.
    destruct (ToString w brief) as [text | e]; cbn [outcome_bind];
      [| exists e; reflexivity].
    destruct (numbered_checks w checks) as [req | e]; cbn [outcome_bind];
      [| exists e; reflexivity].
    assert (H : has_attachments w (VArr items) = Returned true).
    { destruct items as [| x items]; [contradiction |].
      reflexivity. }
    rewrite H. cbn [outcome_bind attachment_names].
    destruct (map_outcome_thrown
                (fun a => outcome_bind (get_prop a "name") (fun name =>
                          outcome_bind (ToString w name) (fun text =>
                          Returned ("- " ++ text)%string)))
                items VNull _ Hin eq_refl) as [e' ->].
    eexists. reflexivity.
Qed.

Lemma attachments_edge_cases_witness :
  exists e,
    generateCode happy_world (VStr "A counter") (VStr "logo.png")
      (VArr [VStr "a"; VStr "b"]) [] = (Thrown e, []).
Proof.
  apply (proj1 (proj2 (attachments_edge_cases happy_world (VStr "A counter")
                         (VArr [VStr "a"; VStr "b"]) []))).
  discriminate.
Defined.

(** ** The order of [Object.entries] *)


Lemma insert_index_perm {A : Type} (n : N) (kv : string * A) (l : list (N * (string * A))) :
  Permutation (insert_index n kv l) ((n, kv) :: l).
Proof.
  induction l as [| [m kv'] l IH]; simpl; [reflexivity |].
  destruct (n <=? m)%N; [reflexivity |].
  rewrite IH. apply perm_swap.
Qed.

Lemma index_entries_perm {A : Type} (obj : list (string * A)) :
  Permutation (map snd (index_entries obj)) (filter (fun kv => is_index (fst kv)) obj).
Proof.
  induction obj as [| [k v] rest IH]; simpl; [reflexivity |].
  unfold is_index. destruct (array_index k) as [n |]; [| exact IH].
  rewrite insert_index_perm. simpl. now rewrite IH.
Qed.

Lemma filter_split_perm {X : Type} (p : X -> bool) (l : list X) :
  Permutation l (filter p l ++ filter (fun x => negb (p x)) l).
Proof.
  induction l as [| x l IH]; simpl; [reflexivity |].
  destruct (p x); simpl; [now rewrite <- IH |].
  rewrite <- Permutation_middle. now rewrite <- IH.
Qed.

Lemma insert_index_In {A : Type} (n : N) (kv : string * A) (l : list (N * (string * A))) x :
  In x (insert_index n kv l) -> x = (n, kv) \/ In x l.
Proof.
  intros H. apply (Permutation_in _ (insert_index_perm n kv l)) in H.
  destruct H; [left; congruence | now right].
Qed.

Lemma insert_index_sorted {A : Type} (n : N) (kv : string * A) (l : list (N * (string * A))) :
  StronglySorted (fun a b => (fst a <= fst b)%N) l ->
  StronglySorted (fun a b => (fst a <= fst b)%N) (insert_index n kv l).
Proof.
  induction 1 as [| [m kv'] l Hs IH Hall]; simpl.
  - repeat constructor.
  - destruct (n <=? m)%N eqn:E.
    + apply N.leb_le in E. constructor; [now constructor |].
      constructor; [exact E |].
      rewrite Forall_forall in *. intros x Hx. specialize (Hall x Hx). simpl in *. lia.
    + apply N.leb_gt in E. constructor; [exact IH |].
      rewrite Forall_forall in *. intros x Hx.
      destruct (insert_index_In _ _ _ _ Hx) as [-> | Hx']; simpl; [lia | now apply Hall].
Qed.

Lemma index_entries_sorted {A : Type} (obj : list (string * A)) :
  StronglySorted (fun a b => (fst a <= fst b)%N) (index_entries obj)
  /\ Forall (fun e => array_index (fst (snd e)) = Some (fst e)) (index_entries obj).
Proof.
  induction obj as [| [k v] rest [IH1 IH2]]; simpl; [split; constructor |].
  destruct (array_index k) as [n |] eqn:E; [| now split].
  split; [now apply insert_index_sorted |].
  rewrite Forall_forall in *. intros x Hx.
  destruct (insert_index_In _ _ _ _ Hx) as [-> | Hx']; [exact E | now apply IH2].
Qed.

Lemma StronglySorted_app {X : Type} (R : X -> X -> Prop) (l1 l2 : list X) :
  StronglySorted R l1 -> StronglySorted R l2 ->
  (forall a b, In a l1 -> In b l2 -> R a b) ->
  StronglySorted R (l1 ++ l2).
Proof.
  induction 1 as [| a l1 Hs IH Hall]; intros H2 Hc; simpl; [exact H2 |].
  constructor.
  - apply IH; [exact H2 |]. intros x y Hx Hy. apply Hc; [now right | exact Hy].
  - apply Forall_app. split; [exact Hall |].
    rewrite Forall_forall. intros y Hy. apply Hc; [now left | exact Hy].
Qed.

Lemma StronglySorted_all {X : Type} (R : X -> X -> Prop) (l : list X) :
  (forall a b, In a l -> In b l -> R a b) -> StronglySorted R l.
Proof.
  induction l as [| x l IH]; intros H; constructor.
  - apply IH. intros a b Ha Hb. apply H; now right.
  - rewrite Forall_forall. intros y Hy. apply H; [now left | now right].
Qed.

Lemma sorted_map_snd {A : Type} (l : list (N * (string * A))) :
  StronglySorted (fun a b => (fst a <= fst b)%N) l ->
  Forall (fun e => array_index (fst (snd e)) = Some (fst e)) l ->
  StronglySorted entry_before (map snd l).
Proof.
  induction 1 as [| [n kv] l Hs IH Hall]; intros HF; simpl; [constructor |].
  inversion HF as [| ? ? Hk Hks]; subst. constructor; [now apply IH |].
  rewrite Forall_forall in *. intros kv' Hin. apply in_map_iff in Hin.
  destruct Hin as [[m kv''] [E Hin]]. simpl in E. subst kv'.
  pose proof (Hks _ Hin) as Hk2. pose proof (Hall _ Hin) as Hle.
  unfold entry_before. simpl in *. now rewrite Hk, Hk2.
Qed.

Lemma filter_none {X : Type} (p : X -> bool) (l : list X) :
  (forall x, In x l -> p x = false) -> filter p l = [].
Proof.
  induction l as [| x l IH]; intros H; simpl; [reflexivity |].
  rewrite (H x (or_introl eq_refl)). apply IH. intros y Hy. apply H. now right.
Qed.

Lemma filter_idem {X : Type} (p : X -> bool) (l : list X) :
  filter p (filter p l) = filter p l.
Proof.
  induction l as [| x l IH]; simpl; [reflexivity |].
  destruct (p x) eqn:E; simpl; rewrite ?E, IH; reflexivity.
Qed.

Lemma Object_entries_perm {A : Type} (obj : list (string * A)) :
  Permutation obj (Object_entries obj).
Proof.
  unfold Object_entries. rewrite index_entries_perm. apply filter_split_perm.
Qed.

(** X8: [Object.entries] loses and repeats nothing (its result is a
    permutation of the object's properties); among the entries every key
    that is an array index stands before every other key, the array
    indices ascend, and the other keys keep the order they were created
    in. *)
Theorem Object_entries_order :
  forall (A : Type) (obj : list (string * A)),
    Permutation obj (Object_entries obj)
    /\ StronglySorted entry_before (Object_entries obj)
    /\ filter (fun kv => negb (is_index (fst kv))) (Object_entries obj)
         = filter (fun kv => negb (is_index (fst kv))) obj.
Proof.
  intros A obj. destruct (index_entries_sorted obj) as [Hsorted Hkeys].
  assert (Hidx : forall kv, In kv (map snd (index_entries obj)) ->
            exists n, array_index (fst kv) = Some n).
  { intros kv Hin. apply in_map_iff in Hin. destruct Hin as [[n kv'] [<- Hin]].
    rewrite Forall_forall in Hkeys. exists n. exact (Hkeys _ Hin). }
  assert (Hnon : forall kv, In kv (filter (fun kv => negb (is_index (fst kv))) obj) ->
            array_index (fst kv) = None).
  { intros kv Hin. apply filter_In in Hin. destruct Hin as [_ Hn].
    unfold is_index in Hn. now destruct (array_index (fst kv)). }
  split; [apply Object_entries_perm | unfold Object_entries; split].
  - apply StronglySorted_app.
    + now apply sorted_map_snd.
    + apply StronglySorted_all. intros a b Ha Hb. unfold entry_before.
      now rewrite (Hnon a Ha), (Hnon b Hb).
    + intros a b Ha Hb. unfold entry_before. destruct (Hidx a Ha) as [n ->].
      now rewrite (Hnon b Hb).
  - rewrite filter_app, (filter_none _ (map snd (index_entries obj))).
    + simpl. apply filter_idem.
    + intros kv Hin. destruct (Hidx kv Hin) as [n Hn]. unfold is_index. now rewrite Hn.
Qed.

(** ** The publisher, whatever the hosting service answers *)

Lemma writes_returned (w : World) (username repoName : string)
    (entries : list (string * string)) :
  forall tr f tr',
    for_of entries (write_entry w username repoName) tt tr = (Returned f, tr') ->
    tr' = tr ++ map (write_effect username repoName) entries.
Proof.
  induction entries as [| x rest IH]; intros tr f tr' H.
  - simpl in H. inversion H. now rewrite app_nil_r.
  - rewrite for_of_cons, write_entry_run in H.
    destruct (repos_createOrUpdateFileContents w (count is_write tr)
                (write_of username repoName x)); [| discriminate].
    apply IH in H. rewrite H. simpl. now rewrite <- app_assoc.
Qed.

(** X9: when [createGitHubRepo] returns, it returns the repository the
    hosting service created, and it has written every file of the bundle
    exactly once, after the three-second wait, to the repository of the
    authenticated user, each with the message [Add <file name>] and the
    base64 text of its content. *)
Theorem published_bundle_is_complete :
  forall (w : World) (repoName : string) (files : bundle) (tr tr' : trace)
         (repo : repo_data),
    createGitHubRepo w repoName files tr = (Returned repo, tr') ->
    exists username,
      users_getAuthenticated w = Returned username
      /\ repos_createForAuthenticatedUser w repoName = Returned repo
      /\ tr' = tr ++ [EGetAuthenticated; ECreateRepo repoName true false; ESetTimeout 3000]
                 ++ map (fun entry =>
                           EWriteFile (mkWrite username repoName (fst entry)
                                         ("Add " ++ fst entry)%string (base64 (snd entry))))
                      (Object_entries files)
      /\ Permutation files (Object_entries files).
Proof.
  intros w repoName files tr tr' repo H.
  unfold createGitHubRepo, bind, await, sleep, perform in H.
  destruct (users_getAuthenticated w) as [username | e]; [| discriminate].
  destruct (repos_createForAuthenticatedUser w repoName) as [r | e]; [| discriminate].
  match type of H with context [for_of ?l ?b ?s ?t] =>
    destruct (for_of l b s t) as [[f | e] tr1] eqn:E end; [| discriminate].
  inversion H; subst. apply writes_returned in E.
  exists username. split; [reflexivity |]. split; [reflexivity |]. split.
  - rewrite E. rewrite <- !app_assoc. reflexivity.
  - apply Object_entries_perm.
Qed.

Lemma published_bundle_is_complete_witness :
  exists username,
    users_getAuthenticated happy_world = Returned username
    /\ repos_createForAuthenticatedUser happy_world "t1-round2"
         = Returned (mkRepo "octocat" "https://github.com/octocat/t1-round2" "main")
    /\ snd (run (createGitHubRepo happy_world "t1-round2" sample_bundle)) =
         [] ++ [EGetAuthenticated; ECreateRepo "t1-round2" true false; ESetTimeout 3000]
            ++ map (fun entry =>
                      EWriteFile (mkWrite username "t1-round2" (fst entry)
                                    ("Add " ++ fst entry)%string (base64 (snd entry))))
                 (Object_entries sample_bundle)
    /\ Permutation sample_bundle (Object_entries sample_bundle).
Proof.
  exact (published_bundle_is_complete happy_world "t1-round2" sample_bundle []
           (snd (run (createGitHubRepo happy_world "t1-round2" sample_bundle)))
           (mkRepo "octocat" "https://github.com/octocat/t1-round2" "main") eq_refl).
Defined.

(** X10: once the bundle is generated and the location name derived,
    when the hosting service refuses to tell who is authenticated, or
    refuses to create the repository (a name already taken, say), the
    pipeline stops there: no wait, no file written, no pages site, no
    notification; the error is logged and nothing else happens.  When the
    name cannot be derived (the conversion of [task] or [round] throws), the
    hosting service is not even asked: only the error is logged. *)
Theorem repository_refused_ends_pipeline :
  forall (w : World) (data : build_data) (tr tr1 : trace) (code : bundle) (e : js_error),
    generateCode w (brief data) (attachments data) (checks data) tr = (Returned code, tr1) ->
    (forall name,
        repo_name w data = Returned name ->
        (users_getAuthenticated w = Thrown e ->
           processRequest w data tr =
             (Returned tt,
              tr1 ++ [EGetAuthenticated;
                      EConsoleError [AStr "Error processing request:"; AErr e]]))
        /\ (forall username,
              users_getAuthenticated w = Returned username ->
              repos_createForAuthenticatedUser w name = Thrown e ->
              processRequest w data tr =
                (Returned tt,
                 tr1 ++ [EGetAuthenticated; ECreateRepo name true false;
                         EConsoleError [AStr "Error processing request:"; AErr e]])))
    /\ (repo_name w data = Thrown e ->
          processRequest w data tr =
            (Returned tt, tr1 ++ [EConsoleError [AStr "Error processing request:"; AErr e]])).
Proof.
  intros w data tr tr1 code e Hgen. split; [intros name Hname; split |].
  - intros Hu. rewrite (processRequest_catches w data tr (tr1 ++ [EGetAuthenticated]) e).
    + now rewrite <- app_assoc.
    + unfold processRequest_try. unfold bind at 1. rewrite Hgen.
      unfold bind at 1, lift. rewrite Hname.
      unfold bind at 1. unfold createGitHubRepo, bind, await. now rewrite Hu.
  - intros username Hu Hr.
    rewrite (processRequest_catches w data tr
               (tr1 ++ [EGetAuthenticated; ECreateRepo name true false]) e).
    + now rewrite <- app_assoc.
    + unfold processRequest_try. unfold bind at 1. rewrite Hgen.
      unfold bind at 1, lift. rewrite Hname.
      unfold bind at 1. unfold createGitHubRepo, bind, await. rewrite Hu, Hr.
      now rewrite <- app_assoc.
  - intros Hname. apply processRequest_catches.
    unfold processRequest_try. unfold bind at 1. rewrite Hgen.
    unfold bind at 1, lift. now rewrite Hname.
Qed.

Lemma repository_refused_ends_pipeline_witness :
  processRequest name_taken sample_data [] =
    (Returned tt,
     snd (generateCode name_taken (brief sample_data) (attachments sample_data)
            (checks sample_data) [])
       ++ [EGetAuthenticated; ECreateRepo "t1-round2" true false;
           EConsoleError [AStr "Error processing request:";
                          AErr (mkError (Some 422) "name already exists on this account")]]).
Proof.
  apply (proj2 (proj1 (repository_refused_ends_pipeline name_taken sample_data [] _ _
                         (mkError (Some 422) "name already exists on this account") eq_refl)
                  "t1-round2"%string eq_refl)
           "octocat"%string); reflexivity.
Defined.

(** ** Enabling the pages site, whatever the hosting service answers *)

Lemma option_eq_dec_409 (o : option Z) : {o = Some 409} + {o <> Some 409}.
Proof.
  destruct o as [z |]; [| right; discriminate].
  destruct (Z.eq_dec z 409) as [-> | N]; [now left | right; congruence].
Qed.

Lemma pages_catch_other (e : js_error) :
  err_status e <> Some 409 ->
  (match err_status e with
   | Some 409 => ret tt
   | _ => throw (A := unit) e
   end) = throw e.
Proof.
  intros H. destruct (err_status e) as [z |]; [| reflexivity].
  destruct (Z.eq_dec z 409) as [-> | Hz]; [congruence |].
  destruct z as [| p | p]; try reflexivity.
  repeat (destruct p as [p | p |]; try reflexivity). congruence.
Qed.

(** X11: [enableGitHubPages] asks for the pages site exactly once, on branch
    main and path /, and never again; it returns exactly when the service
    answered or refused with status 409, and an error it throws is the
    service's own error, never one of status 409. *)
Theorem pages_enabled_once :
  forall (w : World) (owner repo : string) (tr : trace),
    snd (enableGitHubPages w owner repo tr) = tr ++ [ECreatePagesSite owner repo "main" "/"]
    /\ (fst (enableGitHubPages w owner repo tr) = Returned tt <->
        repos_createPagesSite w owner repo = Returned tt
        \/ exists e, repos_createPagesSite w owner repo = Thrown e /\ err_status e = Some 409)
    /\ (forall e,
          fst (enableGitHubPages w owner repo tr) = Thrown e ->
          repos_createPagesSite w owner repo = Thrown e /\ err_status e <> Some 409).
Proof.
  intros w owner repo tr. unfold enableGitHubPages, try_catch, await.
  destruct (repos_createPagesSite w owner repo) as [[] | e] eqn:E.
  - simpl. split; [reflexivity |]. split; [| discriminate]. split; auto.
  - destruct (option_eq_dec_409 (err_status e)) as [Hs | Hs].
    + rewrite Hs. simpl. split; [reflexivity |]. split; [| discriminate].
      split; [| reflexivity]. intros _. right. now exists e.
    + rewrite (pages_catch_other e Hs). simpl. split; [reflexivity |]. split.
      * split; [discriminate |]. intros [H | [e' [H1 H2]]]; [discriminate |].
        inversion H1; subst. contradiction.
      * intros e' He'. inversion He'; subst. split; [reflexivity | exact Hs].
Qed.

(** ** The order of the stages *)

Lemma emits_no_post {A : Type} (c : M A) :
  emits (fun e => is_post e = false) any c ->
  forall tr, count is_post (snd (c tr)) = count is_post tr.
Proof.
  intros H tr. destruct (H tr) as [new [E [F _]]]. rewrite E, count_app.
  rewrite (count_none is_post (fun e => is_post e = false) new); [lia | auto | exact F].
Qed.

Lemma count_post_log (tr : trace) (args : list console_arg) :
  count is_post (tr ++ [EConsoleError args]) = count is_post tr.
Proof.
  rewrite count_app. change (count is_post [EConsoleError args]) with 0%nat. lia.
Qed.

(** X12: the notification is sent only when everything before it went
    through: if a run of the pipeline makes a POST at all, then the
    generator returned a bundle, the location name was derived, the
    publisher returned the repository, enabling the pages site returned,
    and the first POST comes right after the 30-second wait, with the
    notice of that repository. *)
Theorem notification_follows_publication :
  forall (w : World) (data : build_data) (tr : trace),
    (count is_post tr < count is_post (snd (processRequest w data tr)))%nat ->
    exists code tr1 name repo tr2 tr3 rest,
      generateCode w (brief data) (attachments data) (checks data) tr = (Returned code, tr1)
      /\ repo_name w data = Returned name
      /\ createGitHubRepo w name code tr1 = (Returned repo, tr2)
      /\ enableGitHubPages w (owner_login repo) name tr2 = (Returned tt, tr3)
      /\ count is_post tr3 = count is_post tr
      /\ snd (processRequest w data tr) =
           tr3 ++ ESetTimeout 30000
               :: EPost (evaluation_url data)
                    (mkNotice (email data) (task data) (round data) (nonce data)
                       (html_url repo) (default_branch repo)
                       (pages_url (owner_login repo) name))
                    10000
               :: rest.
Proof.
  intros w data tr H.
  pose proof (emits_no_post _ (emits_generateCode w (fun e => is_post e = false)
                (brief data) (attachments data) (checks data) (fun _ _ => eq_refl)) tr) as Cg.
  destruct (generateCode w (brief data) (attachments data) (checks data) tr)
    as [[code | e] tr1] eqn:Hgen; simpl in Cg.
  2:{ exfalso. rewrite (processRequest_catches w data tr tr1 e) in H.
      - simpl in H. rewrite count_post_log in H. lia.
      - unfold processRequest_try, bind. now rewrite Hgen. }
  destruct (repo_name w data) as [name | e] eqn:Hname.
  2:{ exfalso. rewrite (processRequest_catches w data tr tr1 e) in H.
      - simpl in H. rewrite count_post_log in H. lia.
      - unfold processRequest_try. unfold bind at 1. rewrite Hgen.
        unfold bind at 1, lift. now rewrite Hname. }
  pose proof (emits_no_post _ (emits_createGitHubRepo w (fun e => is_post e = false)
                name code eq_refl eq_refl eq_refl (fun _ => eq_refl)) tr1) as Cr.
  destruct (createGitHubRepo w name code tr1) as [[repo | e] tr2] eqn:Hrepo;
    simpl in Cr.
  2:{ exfalso. rewrite (processRequest_catches w data tr tr2 e) in H.
      - simpl in H. rewrite count_post_log in H. lia.
      - unfold processRequest_try. unfold bind at 1. rewrite Hgen.
        unfold bind at 1, lift. rewrite Hname.
        unfold bind at 1. now rewrite Hrepo. }
  pose proof (emits_no_post _ (emits_enableGitHubPages w (fun e => is_post e = false)
                (owner_login repo) name eq_refl) tr2) as Cp.
  destruct (enableGitHubPages w (owner_login repo) name tr2)
    as [[[] | e] tr3] eqn:Hpages; simpl in Cp.
  2:{ exfalso. rewrite (processRequest_catches w data tr tr3 e) in H.
      - simpl in H. rewrite count_post_log in H. lia.
      - unfold processRequest_try. unfold bind at 1. rewrite Hgen.
        unfold bind at 1, lift. rewrite Hname.
        unfold bind at 1. rewrite Hrepo. unfold bind at 1. now rewrite Hpages. }
  destruct (try_catch_extends (processRequest_try w data)
              (fun error => perform (EConsoleError [AStr "Error processing request:"; AErr error]))
              tr) as [m1 E1].
  { intros x. apply emits_perform. exact I. }
  fold (processRequest w data) in E1.
  assert (E2 : exists m2,
            snd (processRequest_try w data tr) =
              tr3 ++ ESetTimeout 30000
                  :: EPost (evaluation_url data)
                       (mkNotice (email data) (task data) (round data) (nonce data)
                          (html_url repo) (default_branch repo)
                          (pages_url (owner_login repo) name))
                       10000
                  :: m2).
  { unfold processRequest_try. unfold bind at 1. rewrite Hgen.
    unfold bind at 1, lift. rewrite Hname.
    unfold bind at 1. rewrite Hrepo. unfold bind at 1. rewrite Hpages.
    unfold bind at 1. unfold sleep at 1, perform at 1.
    match goal with |- context [snd (bind ?c ?k ?t)] => destruct (bind_extends c k t) as [m2 E2] end.
    { intros x. apply emits_perform. exact I. }
    rewrite E2.
    destruct (notifyEvaluation_starts w
                (mkNotice (email data) (task data) (round data) (nonce data)
                   (html_url repo) (default_branch repo)
                   (pages_url (owner_login repo) name))
                (evaluation_url data) (tr3 ++ [ESetTimeout 30000])) as [m3 E3].
    rewrite E3. exists (m3 ++ m2). rewrite <- !app_assoc. reflexivity. }
  destruct E2 as [m2 E2].
  exists code, tr1, name, repo, tr2, tr3, (m2 ++ m1).
  split; [first [exact Hgen | reflexivity] |]. split; [reflexivity |].
  split; [exact Hrepo |]. split; [exact Hpages |].
  split; [lia |]. rewrite E1, E2. rewrite <- app_assoc. reflexivity.
Qed.

Lemma notification_follows_publication_witness :
  exists code tr1 name repo tr2 tr3 rest,
    generateCode happy_world (brief sample_data) (attachments sample_data) (checks sample_data) []
      = (Returned code, tr1)
    /\ repo_name happy_world sample_data = Returned name
    /\ createGitHubRepo happy_world name code tr1 = (Returned repo, tr2)
    /\ enableGitHubPages happy_world (owner_login repo) name tr2 = (Returned tt, tr3)
    /\ count is_post tr3 = count is_post []
    /\ snd (processRequest happy_world sample_data []) =
         tr3 ++ ESetTimeout 30000
             :: EPost (evaluation_url sample_data)
                  (mkNotice (email sample_data) (task sample_data) (round sample_data)
                     (nonce sample_data) (html_url repo) (default_branch repo)
                     (pages_url (owner_login repo) name))
                  10000
             :: rest.
Proof.
  apply (notification_follows_publication happy_world sample_data []).
  vm_compute. lia.
Defined.

(** ** The last line of a run *)






(** ** The handler, whatever the request *)

Lemma count_zero_not_in (p : effect -> bool) (l : trace) (x : effect) :
  count p l = 0%nat -> In x l -> p x = false.
Proof.
  unfold count. induction l as [| y l IH]; intros H Hin; [contradiction |].
  simpl in H. destruct (p y) eqn:E; [discriminate |].
  destruct Hin as [<- | Hin]; [exact E | now apply IH].
Qed.

Lemma js_value_is_nullish (v : js_value) :
  (v = VUndefined \/ v = VNull) \/ (v <> VUndefined /\ v <> VNull).
Proof. destruct v; auto; right; split; discriminate. Qed.

Lemma destructure_returns (body : js_value) (name : string) :
  body <> VUndefined -> body <> VNull -> exists v, destructure body name = Returned v.
Proof.
  intros H1 H2. destruct body; try contradiction; unfold destructure, get_prop; eauto.
Qed.

(** X14: every request gets exactly one HTTP response, whatever its body and
    whatever happens afterwards, and the handler never throws.  The status
    is 200, 403 or 500, and it is 500 exactly when the body is undefined or
    null, in which case nothing but the log entry precedes the response and
    no stage of the pipeline runs. *)
Theorem every_request_gets_one_response :
  forall (w : World) (body : js_value),
    fst (run (build_handler w body)) = Returned tt
    /\ count is_respond (snd (run (build_handler w body))) = 1%nat
    /\ (forall status json,
          In (ERespond status json) (snd (run (build_handler w body))) ->
          status = 200 \/ status = 403 \/ status = 500)
    /\ ((exists json, In (ERespond 500 json) (snd (run (build_handler w body))))
        <-> body = VUndefined \/ body = VNull)
    /\ (body = VUndefined \/ body = VNull ->
        exists e,
          snd (run (build_handler w body)) =
            [EConsoleError [AStr "Error:"; AErr e];
             ERespond 500 [("error", err_message e)%string]]).
Proof.
  intros w body.
  assert (Hnone : body = VUndefined \/ body = VNull ->
            exists e,
              run (build_handler w body) =
                (Returned tt,
                 [EConsoleError [AStr "Error:"; AErr e];
                  ERespond 500 [("error", err_message e)%string]])).
  { intros [-> | ->]; eexists; reflexivity. }
  destruct (js_value_is_nullish body) as [Hn | [H1 H2]].
  - destruct (Hnone Hn) as [e E]. rewrite E. simpl.
    split; [reflexivity |]. split; [reflexivity |]. split; [| split].
    + intros status json [H | [H | []]]; [discriminate |]. inversion H. auto.
    + split; [intros _; exact Hn |]. intros _. eexists. right. left. reflexivity.
    + intros _. now exists e.
  - destruct (destructure_returns body "secret" H1 H2) as [secret Hs].
    rewrite (build_handler_run w body secret Hs).
    destruct (strict_neq_env secret (SECRET_KEY w)).
    + simpl. split; [reflexivity |]. split; [reflexivity |]. split; [| split].
      * intros status json [H | []]. inversion H. auto.
      * split; [intros [json [H | []]]; discriminate | intros [H | H]; contradiction].
      * intros [H | H]; contradiction.
    + destruct (pipeline_never_responds w (data_of body) [acknowledgment]) as [new [E C]].
      rewrite E. cbn [fst snd app].
      assert (Hin : forall status json, In (ERespond status json) new -> False).
      { intros status json Hin. pose proof (count_zero_not_in _ _ _ C Hin). discriminate. }
      split; [reflexivity |]. split; [| split; [| split]].
      * unfold count in *. simpl. now rewrite C.
      * intros status json [H | H]; [inversion H; auto | now destruct (Hin _ _ H)].
      * split; [| intros [H | H]; contradiction].
        intros [json [H | H]]; [discriminate | now destruct (Hin _ _ H)].
      * intros [H | H]; contradiction.
Qed.

(** X15: an authorized request whose [checks] is missing or is not an array
    is acknowledged with 200 like any other, and then the pipeline dies at
    once: a TypeError is logged, and nothing is asked of the generator,
    the hosting service or the evaluation endpoint. *)
Theorem checks_not_array_acknowledged_then_dropped :
  forall (w : World) (body secret : js_value),
    destructure body "secret" = Returned secret ->
    strict_neq_env secret (SECRET_KEY w) = false ->
    (forall l, field body "checks" <> VArr l) ->
    exists e,
      run (build_handler w body) =
        (Returned tt,
         [ERespond 200 [("message", "Request received, processing...")%string];
          EConsoleError [AStr "Error processing request:"; AErr e]]).
Proof.
  intros w body secret Hs Heq Hchecks.
  rewrite (build_handler_run w body secret Hs), Heq.
  destruct (numbered_checks_not_array w _ Hchecks) as [e He].
  assert (Hgen : exists e',
            generateCode w (brief (data_of body)) (attachments (data_of body))
              (checks (data_of body)) [acknowledgment] = (Thrown e', [acknowledgment])).
  { unfold generateCode, bind, lift, build_prompt. cbn [checks data_of].
    destruct (ToString w (brief (data_of body))) as [text | e0]; cbn [outcome_bind];
      [rewrite He; cbn [outcome_bind] |]; eauto. }
  destruct Hgen as [e' Hgen]. exists e'.
  rewrite (processRequest_catches w (data_of body) [acknowledgment] [acknowledgment] e').
  - reflexivity.
  - unfold processRequest_try. unfold bind at 1. now rewrite Hgen.
Qed.

Lemma checks_not_array_acknowledged_then_dropped_witness :
  exists e,
    run (build_handler happy_world
           (VObj [("secret", VStr "s3cret"); ("task", VStr "t1"); ("round", VNum 2)]%string)) =
      (Returned tt,
       [ERespond 200 [("message", "Request received, processing...")%string];
        EConsoleError [AStr "Error processing request:"; AErr e]]).
Proof.
  apply (checks_not_array_acknowledged_then_dropped happy_world
           (VObj [("secret", VStr "s3cret"); ("task", VStr "t1"); ("round", VNum 2)]%string)
           (VStr "s3cret") eq_refl eq_refl).
  intros l. discriminate.
Defined.

(** X2 at work: two 503 responses, then 200: the delivery returns, right
    after its third POST. *)
Lemma notify_outcome_witness :
  exists before body,
    snd (notifyEvaluation (with_endpoint happy_world (flaky 2)) sample_notice sample_url []) =
      [] ++ before ++ [EPost sample_url sample_notice 10000;
                       EConsoleLog [AStr "Successfully notified evaluation API"]]
    /\ evaluation_endpoint (with_endpoint happy_world (flaky 2))
         (count is_post [] + count is_post before) sample_url sample_notice
         = Response 200 body.
Proof.
  apply (proj1 (notify_outcome (with_endpoint happy_world (flaky 2))
                  sample_notice sample_url [])).
  reflexivity.
Defined.

(** X4 at work: a page with no fence in it. *)
Lemma strip_fences_leaves_no_fence_witness :
  contains fence "<h1>hi</h1>" = false /\ strip_fences "<h1>hi</h1>" = "<h1>hi</h1>"%string.
Proof.
  split; [reflexivity |].
  apply (proj2 (strip_fences_leaves_no_fence "<h1>hi</h1>")). reflexivity.
Defined.

(** X11 at work: the pages site exists already. *)
Lemma pages_enabled_once_witness :
  fst (enableGitHubPages
         (with_pages happy_world (Thrown (mkError (Some 409) "GitHub Pages is already enabled.")))
         "octocat" "t1-round2" []) = Returned tt.
Proof.
  apply (proj1 (proj2 (pages_enabled_once
                         (with_pages happy_world
                            (Thrown (mkError (Some 409) "GitHub Pages is already enabled.")))
                         "octocat" "t1-round2" []))).
  right. exists (mkError (Some 409) "GitHub Pages is already enabled."). split; reflexivity.
Defined.


(** X14 at work: a request with a null body. *)
Lemma every_request_gets_one_response_witness :
  exists e,
    snd (run (build_handler happy_world VNull)) =
      [EConsoleError [AStr "Error:"; AErr e];
       ERespond 500 [("error", err_message e)%string]].
Proof.
  apply (proj2 (proj2 (proj2 (proj2 (every_request_gets_one_response happy_world VNull))))).
  now right.
Defined.
